(** * whois/__init__.py: TLD classification and progressive WHOIS lookup

    A shallow embedding of the orchestration module of python-whois
    ([src/whois/__init__.py]) together with the properties its
    specification states about it.

    Modelling conventions.
    - A Python [str] is a Rocq [string]; a character is the code point
      0..255 it denotes, so the text handled here is the Latin-1 range of
      Python's Unicode strings.  [str.lower] and [str.strip] are written
      out for exactly that range.
    - A Python exception is a value of [exn]; fallible code returns
      [result].
    - The collaborators imported from sibling modules ([do_query],
      [do_parse], [Domain], [TLD_RE]) are the fields of the class
      [Collaborators].  Their effects are threaded through an abstract
      world, and every call of the lookup executor is recorded in a
      trace.
    - Output written to [sys.stderr] under [verbose] is not modelled. *)

From Stdlib Require Import ZArith Ascii String Lia.
From stdpp Require Import base strings list gmap sorting.

Set Warnings "-register-all".

(** ** Python values, exceptions and results *)

(** The objects a caller may hand to a dynamically typed parameter. *)
Inductive PyVal : Type :=
  | PyNone
  | PyBool (b : bool)
  | PyInt (z : Z)
  | PyBytes (b : list Byte.byte)
  | PyStr (s : string)
  | PyList (l : list PyVal).

(** [isinstance(v, str)] *)
Definition isinstance_str (v : PyVal) : bool :=
  match v with PyStr _ => true | _ => false end.

(** [isinstance(v, bool)] *)
Definition isinstance_bool (v : PyVal) : bool :=
  match v with PyBool _ => true | _ => false end.

(** Truth value of an object, as [if v:] computes it. *)
Definition truthy (v : PyVal) : bool :=
  match v with
  | PyNone => false
  | PyBool b => b
  | PyInt z => negb (z =? 0)%Z
  | PyBytes b => match b with [] => false | _ => true end
  | PyStr s => match s with EmptyString => false | _ => true end
  | PyList l => match l with [] => false | _ => true end
  end.

(** The exceptions this module raises itself, and [Raised] for one that
    comes out of a collaborator, by the name of its class. *)
Inductive exn : Type :=
  | AssertionError (msg : string)
  | IndexError
  | KeyError
  | TypeError
  | UnicodeError
  | UnknownTld (msg : string)
  | WhoisPrivateRegistry (msg : string)
  | Raised (name : string).

Inductive result (A : Type) : Type :=
  | Ok (a : A)
  | Raise (e : exn).
Arguments Ok {A} a.
Arguments Raise {A} e.

(** How a call into a collaborator ends. *)
Inductive outcome (A : Type) : Type :=
  | Returns (a : A)
  | Fails (name : string).
Arguments Returns {A} a.
Arguments Fails {A} name.

Definition of_outcome {A} (o : outcome A) : result A :=
  match o with Returns a => Ok a | Fails name => Raise (Raised name) end.

Definition rbind {A B} (r : result A) (k : A → result B) : result B :=
  match r with Ok a => k a | Raise e => Raise e end.

(** ** Built-in string and list operations *)

Module Py.

Definition code (c : ascii) : nat := nat_of_ascii c.

(** The upper-case letters below U+0100: A-Z, and the Latin-1 capitals
    U+00C0-U+00DE without the multiplication sign U+00D7. *)
Definition isupper (c : ascii) : bool :=
  let n := code c in
  ((65 <=? n) && (n <=? 90))
  || ((192 <=? n) && (n <=? 222) && negb (n =? 215)).

Definition lower_char (c : ascii) : ascii :=
  if isupper c then ascii_of_nat (code c + 32) else c.

(** [s.lower()] *)
Fixpoint lower (s : string) : string :=
  match s with
  | EmptyString => EmptyString
  | String c s' => String (lower_char c) (lower s')
  end.

(** [c.isspace()] below U+0100: TAB, LF, VT, FF, CR, FS, GS, RS, US,
    SPACE, NEL and NBSP. *)
Definition isspace (c : ascii) : bool :=
  let n := code c in
  ((9 <=? n) && (n <=? 13)) || ((28 <=? n) && (n <=? 32))
  || (n =? 133) || (n =? 160).

(** [s.lstrip(chars)], with the character set given as a predicate. *)
Fixpoint lstrip_by (p : ascii → bool) (s : string) : string :=
  match s with
  | EmptyString => EmptyString
  | String c s' => if p c then lstrip_by p s' else s
  end.

(** [s.rstrip(chars)]: every trailing character of the set goes. *)
Fixpoint rstrip_by (p : ascii → bool) (s : string) : string :=
  match s with
  | EmptyString => EmptyString
  | String c s' =>
      match rstrip_by p s' with
      | EmptyString => if p c then EmptyString else String c EmptyString
      | r => String c r
      end
  end.

(** [s.strip()] *)
Definition strip (s : string) : string := rstrip_by isspace (lstrip_by isspace s).

(** [s.rstrip(".")] *)
Definition rstrip_dot (s : string) : string :=
  rstrip_by (λ c, Ascii.eqb c ".") s.

(** [s.split(sep)] for a one-character separator; never empty. *)
Fixpoint split (sep : ascii) (s : string) : list string :=
  match s with
  | EmptyString => [EmptyString]
  | String c s' =>
      if Ascii.eqb c sep then EmptyString :: split sep s'
      else match split sep s' with
           | h :: t => String c h :: t
           | [] => [String c EmptyString]
           end
  end.

(** [s.endswith(suf)] *)
Fixpoint endswith (s suf : string) : bool :=
  String.eqb s suf
  || match s with
     | EmptyString => false
     | String _ s' => endswith s' suf
     end.

(** [c in s] *)
Fixpoint contains (c : ascii) (s : string) : bool :=
  match s with
  | EmptyString => false
  | String a s' => Ascii.eqb a c || contains c s'
  end.

(** [c * n] *)
Fixpoint repeat_char (c : ascii) (n : nat) : string :=
  match n with
  | 0 => EmptyString
  | S n => String c (repeat_char c n)
  end.

(** [l[i]] for [i >= 0] *)
Definition getitem {A} (l : list A) (i : nat) : result A :=
  match l !! i with Some x => Ok x | None => Raise IndexError end.

(** [l[-1]] *)
Definition getlast {A} (l : list A) : result A :=
  match last l with Some x => Ok x | None => Raise IndexError end.

(** [l[i] = x] for [i >= 0], giving the list after the assignment. *)
Definition setitem {A} (l : list A) (i : nat) (x : A) : result (list A) :=
  if decide (i < length l) then Ok (<[i:=x]> l) else Raise IndexError.

(** [l[1:]] *)
Definition slice1 {A} (l : list A) : list A := drop 1 l.

End Py.

(** ** Module-level tables *)

Definition CACHE_FILE : option string := None.
Definition SLOW_DOWN : Z := 0%Z.

(** A dict literal, kept as its items in insertion order: that is the
    order in which [for i in table] visits the keys. *)
Definition Map2Underscore : list (string * string) :=
  [ (".ac.uk", "ac_uk");
    (".co.il", "co_il");
    (".ca.ug", "ca_ug");
    (".co.ug", "co_ug");
    (".co.th", "co_th");
    (".in.th", "in_th");
    (".ac.jp", "ac_jp");
    (".ad.jp", "ad_jp");
    (".co.jp", "co_jp");
    (".ed.jp", "ed_jp");
    (".go.jp", "go_jp");
    (".gr.jp", "gr_jp");
    (".lg.jp", "lg_jp");
    (".ne.jp", "ne_jp");
    (".or.jp", "or_jp");
    (".geo.jp", "geo_jp");
    (".com.au", "com_au");
    (".com.sg", "com_sg");
    (".com.tr", "com_tr");
    (".edu.tr", "edu_tr");
    (".org.tr", "org_tr");
    (".edu.ua", "edu_ua");
    (".lviv.ua", "lviv_ua");
    (".hopto.org", "hopto_org");
    (".duckdns.org", "duckdns_org");
    (".no-ip.com", "noip_com");
    (".no-ip.org", "noip_org");
    (".ac.th", "ac_th");
    (".co.ke", "co_ke");
    (".com.bo", "com_bo");
    (".com.ly", "com_ly");
    (".com.tw", "com_tw");
    (".com.np", "com_np");
    (".go.th", "go_th");
    (".com.ec", "com_ec");
    (".gob.ec", "gob_ec");
    (".co.zw", "com_zw");
    (".org.zw", "org_zw");
    (".com.py", "com_py") ].

Definition PythonKeyWordMap : list (string * string) :=
  [ ("global", "global_");
    (".id", "id_");
    (".in", "in_");
    (".is", "is_");
    (".as", "as_") ].

Definition Utf8Map : list (string * string) :=
  [ (".xn--p1ai", "ru_rf") ].

(** ** The suffix classifier *)

(** The scan [for i in table: if domain.endswith(i): return table[i]];
    [None] when the loop falls through. *)
Fixpoint first_suffix (domain : string) (table : list (string * string))
  : option string :=
  match table with
  | [] => None
  | (i, v) :: rest =>
      if Py.endswith domain i then Some v else first_suffix domain rest
  end.

(** No key of the table ends another key that carries a different
    identifier: a text then matches entries of one identifier only, and
    the order of the scan does not show. *)
Definition unambiguous (table : list (string * string)) : bool :=
  forallb (λ e1,
    forallb (λ e2,
      implb (Py.endswith e1.1 e2.1) (String.eqb e1.2 e2.2)) table) table.

(** [filterTldToSupportedPattern(domain, d)].  The list [d] is the
    caller's object and the [.name] branch assigns to [d[0]], so the
    function gives back the identifier together with the list as the
    caller sees it afterwards. *)
Definition filterTldToSupportedPattern (domain : string) (d : list string)
  : result (string * list string) :=
  match (if 2 <? length d then first_suffix domain Map2Underscore else None) with
  | Some tld => Ok (tld, d)
  | None =>
  match first_suffix domain PythonKeyWordMap with
  | Some tld => Ok (tld, d)
  | None =>
  match first_suffix domain Utf8Map with
  | Some tld => Ok (tld, d)
  | None =>
      if Py.endswith domain ".name" then
        rbind (Py.getitem d 0) (λ d0,
        rbind (Py.setitem d 0 ("domain=" +:+ d0)) (λ d,
        rbind (Py.getlast d) (λ tld, Ok (tld, d))))
      else
        rbind (Py.getlast d) (λ tld, Ok (tld, d))
  end end end.

(** ** The internationalization converter *)

(** [k.encode("idna")] followed by [.decode()].  The codec returns the
    empty result for the empty string; a string of ASCII characters takes
    the codec's fast path, which checks the length of each dot-separated
    label and gives the text back unchanged; any other string goes
    through nameprep and punycode, the codec's [ToASCII], which is the
    parameter [to_ascii] ([None] when it raises [UnicodeError]). *)
Definition is_ascii (c : ascii) : bool := Py.code c <? 128.

Fixpoint all_ascii (s : string) : bool :=
  match s with
  | EmptyString => true
  | String c s' => is_ascii c && all_ascii s'
  end.

Fixpoint idna_labels_ok (labels : list string) : bool :=
  match labels with
  | [] => true
  | [l] => String.length l <? 64
  | l :: rest =>
      (0 <? String.length l) && (String.length l <? 64) && idna_labels_ok rest
  end.

Definition idna_encode (to_ascii : string → option string) (k : string)
  : result string :=
  match k with
  | EmptyString => Ok EmptyString
  | _ =>
      if all_ascii k then
        if idna_labels_ok (Py.split "." k) then Ok k else Raise UnicodeError
      else match to_ascii k with Some x => Ok x | None => Raise UnicodeError end
  end.

(** [x or k] on strings *)
Definition str_or (x k : string) : string :=
  match x with EmptyString => k | _ => x end.

(** [[k.encode("idna").decode() or k for k in d]] *)
Fixpoint internationalizedDomainNameToPunyCode
    (to_ascii : string → option string) (d : list string)
  : result (list string) :=
  match d with
  | [] => Ok []
  | k :: rest =>
      rbind (idna_encode to_ascii k) (λ x,
      rbind (internationalizedDomainNameToPunyCode to_ascii rest) (λ rest',
      Ok (str_or x k :: rest')))
  end.

(** ** The label normalizer (query, lines 214-218) *)

(** Gives the normalized text and the label list; the text keeps a
    leading [www.] that the label list drops. *)
Definition normalize (domain : string) : result (string * list string) :=
  let domain := Py.rstrip_dot (Py.strip (Py.lower domain)) in
  let d := Py.split "." domain in
  rbind (Py.getitem d 0) (λ d0,
  Ok (domain, if String.eqb d0 "www" then Py.slice1 d else d)).

(** The normalizer as the specification words it: one trailing dot at
    most is removed. *)
Fixpoint strip_single_trailing_dot (s : string) : string :=
  match s with
  | EmptyString => EmptyString
  | String c EmptyString => if Ascii.eqb c "." then EmptyString else s
  | String c s' => String c (strip_single_trailing_dot s')
  end.

Definition normalize_spec (domain : string) : result (string * list string) :=
  let domain := strip_single_trailing_dot (Py.strip (Py.lower domain)) in
  let d := Py.split "." domain in
  rbind (Py.getitem d 0) (λ d0,
  Ok (domain, if String.eqb d0 "www" then Py.slice1 d else d)).

(** ** TLD metadata and the query parameter resolver *)

(** One entry of [TLD_RE], reduced to the keys this module reads;
    [None] is an absent key, as [dict.get] reports it. *)
Record TldMeta : Type := {
  _privateRegistry : option bool;
  _server : option string;
  _slowdown : option Z;
}.

(** [thisTld.get("_privateRegistry")] as a condition *)
Definition private_registry (thisTld : TldMeta) : bool :=
  match _privateRegistry thisTld with Some b => b | None => false end.

(** Lines 238-240: [if server is None and thisTldServer: server = thisTldServer] *)
Definition effective_server (server : option string) (thisTld : TldMeta)
  : option string :=
  match server, _server thisTld with
  | None, Some s => if truthy (PyStr s) then Some s else None
  | _, _ => server
  end.

(** Lines 245-247:
    [if slow_down == 0 and slowDown and slowDown > 0: slow_down = slowDown] *)
Definition effective_slow_down (slow_down : Z) (thisTld : TldMeta) : Z :=
  match _slowdown thisTld with
  | Some slowDown =>
      if (slow_down =? 0)%Z && truthy (PyInt slowDown) && (0 <? slowDown)%Z
      then slowDown else slow_down
  | None => slow_down
  end.

(** ** Collaborators *)

(** The keyword arguments of one [do_query] call. *)
Module Call.
Record t : Type := mk {
  dl : list string;
  force : bool;
  cache_file : option string;
  slow_down : Z;
  ignore_returncode : bool;
  server : option string;
  verbose : bool;
}.

(** The call [c] repeated for its label list without the first [i]
    labels. *)
Definition retry (c : t) (i : nat) : t :=
  mk (drop i (dl c)) (force c) (cache_file c) (slow_down c)
    (ignore_returncode c) (server c) (verbose c).

(** A first call and the [m] retries after it. *)
Definition attempts (c : t) (m : nat) : list t := retry c <$> seq 0 (S m).
End Call.

(** What [do_parse] returns when it returns a dict. *)
Abbreviation ParsedData := (gmap string PyVal).

(** The names this module imports from [._1_query], [._2_parse] and
    [._3_adjust], and the [ToASCII] of Python's idna codec.  [World] is
    whatever the collaborators read and change (network, cache, clock). *)
Class Collaborators : Type := {
  World : Type;
  DomainObj : Type;
  TLD_RE : gmap string TldMeta;
  do_query : Call.t → World → outcome string * World;
  do_parse : string → string → list string → bool → bool →
             World → outcome (option ParsedData) * World;
  Domain : ParsedData → bool → World → outcome DomainObj * World;
  to_ascii : string → option string;
}.

(** ** Effects: the world, the trace of executor calls, exceptions *)

Section Engine.
Context `{Collaborators}.

Record St : Type := mkSt {
  world : World;
  calls : list Call.t;
}.

Definition M (A : Type) : Type := St → result A * St.

Definition ret {A} (a : A) : M A := λ st, (Ok a, st).

Definition raise {A} (e : exn) : M A := λ st, (Raise e, st).

Definition bind {A B} (m : M A) (k : A → M B) : M B :=
  λ st, match m st with
        | (Ok a, st') => k a st'
        | (Raise e, st') => (Raise e, st')
        end.

Definition lift {A} (r : result A) : M A := λ st, (r, st).

(** A collaborator that touches the world only. *)
Definition effect {A} (f : World → outcome A * World) : M A :=
  λ st, let '(r, w) := f (world st) in (of_outcome r, mkSt w (calls st)).

(** Calling the lookup executor: the call enters the trace, then runs. *)
Definition call_do_query (c : Call.t) : M string :=
  λ st, let '(r, w) := do_query c (world st) in
        (of_outcome r, mkSt w (calls st ++ [c])).

End Engine.

Notation "'let*' p ':=' m 'in' k" := (bind m (λ p, k))
  (at level 10, p pattern, m at level 100, k at level 200).

(** ** The progressive resolution engine *)

Section Query.
Context `{Collaborators}.

(** [x[0]] on an object *)
Definition subscript0 (v : PyVal) : result PyVal :=
  match v with
  | PyList l => Py.getitem l 0
  | PyStr (String c _) => Ok (PyStr (String c EmptyString))
  | PyStr EmptyString => Raise IndexError
  | PyBytes (b :: _) => Ok (PyInt (Z.of_N (Byte.to_N b)))
  | PyBytes [] => Raise IndexError
  | _ => Raise TypeError
  end.

(** [pd and pd["domain_name"][0]] as a condition *)
Definition has_domain_name (pd : option ParsedData) : result bool :=
  match pd with
  | None => Ok false
  | Some pd =>
      if bool_decide (size pd = 0) then Ok false
      else match pd !! "domain_name" with
           | None => Raise KeyError
           | Some v => rbind (subscript0 v) (λ x, Ok (truthy x))
           end
  end.

(** The [while 1] loop of [query] (lines 264-297).  Each turn either
    returns or continues with [d[1:]], so the loop is a recursion on
    [d]; an empty [d] is never longer than [len(tldLevel) + 1]. *)
Fixpoint query_while (tld : string) (tldLevel : list string)
    (force : bool) (cache_file : option string) (slow_down : Z)
    (ignore_returncode : bool) (server : option string)
    (verbose with_cleanup_results : bool) (d : list string)
  : M (option DomainObj) :=
  let* q := call_do_query
        (Call.mk d force cache_file slow_down ignore_returncode server verbose) in
  let* pd := effect (do_parse q tld d verbose with_cleanup_results) in
  let* found := lift (has_domain_name pd) in
  if found then
    match pd with
    | Some pd => let* r := effect (Domain pd verbose) in ret (Some r)
    | None => ret None
    end
  else
    match d with
    | _ :: d' =>
        if length tldLevel + 1 <? length d then
          query_while tld tldLevel force cache_file slow_down
            ignore_returncode server verbose with_cleanup_results d'
        else ret None
    | [] => ret None
    end.

Definition unknown_tld_msg (tld : string) : string :=
  ("The TLD " +:+ tld +:+ " is currently not supported by this package.")
  +:+ " " +:+ "Use validTlds() to see what toplevel domains are supported.".

Definition private_registry_msg : string :=
  "This tld has either no whois server or responds only with minimal information".

(** [x or y] on optional strings *)
Definition opt_str_or (x y : option string) : option string :=
  match x with
  | Some (String _ _) => x
  | _ => y
  end.

(** [query(domain, force, cache_file, slow_down, ignore_returncode,
    server, verbose, with_cleanup_results, internationalized)] *)
Definition query (domain : PyVal) (force : bool)
    (cache_file : option string) (slow_down : Z)
    (ignore_returncode : bool) (server : option string)
    (verbose with_cleanup_results : bool) (internationalized : PyVal)
  : M (option DomainObj) :=
  match domain with
  | PyStr domain =>
      let cache_file := opt_str_or cache_file CACHE_FILE in
      let slow_down := if (slow_down =? 0)%Z then SLOW_DOWN else slow_down in
      let* (domain, d) := lift (normalize domain) in
      if length d =? 1 then ret None else
      let* (tld, d) := lift (filterTldToSupportedPattern domain d) in
      match TLD_RE !! tld with
      | None => raise (UnknownTld (unknown_tld_msg tld))
      | Some thisTld =>
          if private_registry thisTld then
            raise (WhoisPrivateRegistry private_registry_msg)
          else
            let server := effective_server server thisTld in
            let slow_down := effective_slow_down slow_down thisTld in
            let tldLevel := Py.split "_" tld in
            let* d := (if truthy internationalized && isinstance_bool internationalized
                  then lift (internationalizedDomainNameToPunyCode to_ascii d)
                  else ret d) in
            query_while tld tldLevel force cache_file slow_down
              ignore_returncode server verbose with_cleanup_results d
      end
  | _ => raise (AssertionError "`domain` - must be <str>")
  end.

End Query.

(** ** Test doubles

    A registry with a handful of entries and collaborators that answer
    without a network: the executor returns an empty text and counts its
    calls in the world, the parser finds nothing, so every candidate of
    the retry loop is tried. *)

Module Stub.

Definition plain : TldMeta :=
  {| _privateRegistry := None; _server := None; _slowdown := None |}.

Definition registry : gmap string TldMeta :=
  <["com" := plain]>
  (<["uk" := plain]>
  (<["co_il" := plain]>
  (<["is_" := plain]>
  (<["name" := plain]>
  (<["hinted" := {| _privateRegistry := Some false;
                    _server := Some "whois.nic.hinted";
                    _slowdown := Some 5%Z |}]>
  (<["odd" := {| _privateRegistry := None;
                 _server := Some "";
                 _slowdown := Some (-1)%Z |}]>
  (<["closed" := {| _privateRegistry := Some true;
                    _server := None;
                    _slowdown := None |}]> ∅))))))).

Definition env : Collaborators :=
  {| World := nat;
     DomainObj := ParsedData;
     TLD_RE := registry;
     do_query := λ _ w, (Returns "", S w);
     do_parse := λ _ _ _ _ _ w, (Returns None, w);
     Domain := λ pd _ w, (Returns pd, w);
     to_ascii := λ _, None |}.

Definition st0 : @St env := @mkSt env 0 [].

(** [query(domain)] with every keyword argument at its default. *)
Definition run (domain : string) : result (option ParsedData) * @St env :=
  @query env (PyStr domain) false None 0%Z false None false false
    (PyBool false) st0.

(** A label of 64 letters, one more than a DNS label may have. *)
Definition long_label : string := Py.repeat_char "a" 64.

(** The label lists the executor was called with, in order. *)
Definition lookups (st : @St env) : list (list string) :=
  Call.dl <$> @calls env st.

End Stub.

(** ** The rest of the module: [validTlds], [result2dict] and [get] *)

(** [all(p(c) for c in s)] *)
Fixpoint all_chars (p : ascii → bool) (s : string) : bool :=
  match s with
  | EmptyString => true
  | String c s' => p c && all_chars p s'
  end.

(** [s.count(c)] *)
Fixpoint count_char (c : ascii) (s : string) : nat :=
  match s with
  | EmptyString => 0
  | String a s' => (if Ascii.eqb a c then 1 else 0) + count_char c s'
  end.

(** [s.startswith(".")], as a number: 1 when it does, else 0. *)
Definition leading_dot (s : string) : nat :=
  match s with
  | String a _ => if Ascii.eqb a "." then 1 else 0
  | EmptyString => 0
  end.

(** The three suffix tables, in the order the classifier reads them. *)
Definition all_tables : list (string * string) :=
  Map2Underscore ++ PythonKeyWordMap ++ Utf8Map.

(** No key of the first table ends a key of the second, or the other
    way round: no text matches a key of each. *)
Definition apart (t1 t2 : list (string * string)) : bool :=
  forallb (λ e1,
    forallb (λ e2,
      negb (Py.endswith e1.1 e2.1) && negb (Py.endswith e2.1 e1.1)) t2) t1.

(** [i.lstrip(".")] *)
Definition lstrip_dot (i : string) : string :=
  Py.lstrip_by (λ c, Ascii.eqb c ".") i.

(** [for i in table: rmap[table[i]] = i.lstrip(".")] *)
Definition rmap_add (table : list (string * string))
    (rmap : gmap string string) : gmap string string :=
  foldl (λ m e, <[e.2 := lstrip_dot e.1]> m) rmap table.

(** The reverse dict [validTlds] builds (lines 116-124). *)
Definition rmap : gmap string string :=
  rmap_add Utf8Map (rmap_add PythonKeyWordMap (rmap_add Map2Underscore ∅)).

(** The body of the loop of lines 128-132: [rmap[tld]] when [tld] is a
    key of [rmap], else [tld]. *)
Definition back (tld : string) : string :=
  match rmap !! tld with Some s => s | None => tld end.

(** [a <= b] on [str]: lexicographic, by code point. *)
Definition str_le (a b : string) : Prop := String.leb a b = true.

#[global] Instance str_le_dec : RelDecision str_le.
Proof. intros a b. unfold str_le. apply _. Defined.

(** [sorted(l)] on a list of [str] *)
Definition sorted (l : list string) : list string := merge_sort str_le l.

(** [validTlds()].  The keys of [TLD_RE] are visited in some order;
    [sorted] makes the result the same for every order. *)
Definition validTlds `{Collaborators} : list string :=
  sorted (back <$> (map_to_list TLD_RE).*1).

Section Adapter.
Context `{Collaborators}.

(** [vars(r)] and the truth value of an instance of [Domain], the class
    of [._3_adjust]. *)
Variable vars : DomainObj → gmap string PyVal.
Variable instance_truthy : DomainObj → bool.

(** [r and vars(r) or {}] *)
Definition and_vars_or_empty (r : option DomainObj) : gmap string PyVal :=
  match r with
  | None => ∅
  | Some o =>
      if instance_truthy o then
        if bool_decide (size (vars o) = 0) then ∅ else vars o
      else ∅
  end.

(** [result2dict(func)], applied to the arguments that [func] already
    holds. *)
Definition result2dict (func : M (option DomainObj)) : M (gmap string PyVal) :=
  let* r := func in ret (and_vars_or_empty r).

(** [get = result2dict(query)] *)
Definition get (domain : PyVal) (force : bool)
    (cache_file : option string) (slow_down : Z)
    (ignore_returncode : bool) (server : option string)
    (verbose with_cleanup_results : bool) (internationalized : PyVal)
  : M (gmap string PyVal) :=
  result2dict (query domain force cache_file slow_down ignore_returncode
                 server verbose with_cleanup_results internationalized).

End Adapter.

(** ** More test doubles *)

(** An executor that cannot reach any server. *)
Module Offline.

Definition env : Collaborators :=
  {| World := nat;
     DomainObj := ParsedData;
     TLD_RE := Stub.registry;
     do_query := λ _ w, (Fails "WhoisCommandFailed", S w);
     do_parse := λ _ _ _ _ _ w, (Returns None, w);
     Domain := λ pd _ w, (Returns pd, w);
     to_ascii := λ _, None |}.

Definition st0 : @St env := @mkSt env 0 [].

End Offline.

(** * Properties *)

(** ** The built-ins and the classifier on sample inputs *)

Example lower_strip_rstrip :
  Py.rstrip_dot (Py.strip (Py.lower "  WwW.Example.COM. ")) = "www.example.com".
Proof. reflexivity. Qed.

Example split_keeps_empty_labels : Py.split "." "a..b." = ["a"; ""; "b"; ""].
Proof. reflexivity. Qed.

Example split_of_empty : Py.split "." "" = [""].
Proof. reflexivity. Qed.

Example normalize_www_google :
  normalize "www.google.com" = Ok ("www.google.com", ["google"; "com"]).
Proof. reflexivity. Qed.

Example classify_google :
  filterTldToSupportedPattern "www.google.com" ["google"; "com"]
  = Ok ("com", ["google"; "com"]).
Proof. reflexivity. Qed.

Example classify_name_marks_first_label :
  filterTldToSupportedPattern "john.smith.name" ["john"; "smith"; "name"]
  = Ok ("name", ["domain=john"; "smith"; "name"]).
Proof. reflexivity. Qed.

Example classify_two_labels_skips_compound_table :
  filterTldToSupportedPattern "co.il" ["co"; "il"] = Ok ("il", ["co"; "il"]).
Proof. reflexivity. Qed.

Example classify_punycode_rf :
  filterTldToSupportedPattern "example.xn--p1ai" ["example"; "xn--p1ai"]
  = Ok ("ru_rf", ["example"; "xn--p1ai"]).
Proof. reflexivity. Qed.

Example lookups_co_il :
  Stub.lookups (Stub.run "sub.example.co.il").2
  = [["sub"; "example"; "co"; "il"]; ["example"; "co"; "il"]].
Proof. vm_compute. reflexivity. Qed.

Example lookups_co_uk :
  Stub.lookups (Stub.run "sub.example.co.uk").2
  = [["sub"; "example"; "co"; "uk"]; ["example"; "co"; "uk"]; ["co"; "uk"]].
Proof. vm_compute. reflexivity. Qed.

(** ** Suffix tests *)

Section Endswith.

Lemma endswith_refl s : Py.endswith s s = true.
Proof. destruct s; cbn [Py.endswith]; rewrite String.eqb_refl; reflexivity. Qed.

Lemma endswith_cons c s suf :
  Py.endswith s suf = true → Py.endswith (String c s) suf = true.
Proof. intros E. cbn [Py.endswith]. rewrite E. apply orb_true_r. Qed.

(** [endswith] finds a suffix exactly when the text splits into some
    prefix followed by it. *)
Lemma endswith_spec s suf :
  Py.endswith s suf = true ↔ ∃ pre, s = pre +:+ suf.
Proof.
  split.
  - induction s as [|c s IH]; cbn [Py.endswith].
    + rewrite orb_false_r. intros E%String.eqb_eq. exists EmptyString. exact E.
    + intros [E%String.eqb_eq | E]%orb_true_iff.
      * exists EmptyString. exact E.
      * destruct (IH E) as [pre ->]. exists (String c pre). reflexivity.
  - intros [pre ->]. induction pre as [|c pre IH].
    + apply endswith_refl.
    + apply (endswith_cons c _ _ IH).
Qed.

Lemma endswith_length s suf :
  Py.endswith s suf = true → String.length suf ≤ String.length s.
Proof.
  induction s as [|c s IH]; cbn [Py.endswith].
  - rewrite orb_false_r. intros E%String.eqb_eq. subst. reflexivity.
  - intros [E%String.eqb_eq | E]%orb_true_iff.
    + subst. reflexivity.
    + specialize (IH E). cbn [String.length]. lia.
Qed.

(** Two suffixes of one text are comparable: the shorter one ends the
    longer one. *)
Lemma endswith_comparable s a b :
  Py.endswith s a = true → Py.endswith s b = true →
  String.length b ≤ String.length a → Py.endswith a b = true.
Proof.
  induction s as [|c s IH]; cbn [Py.endswith].
  - rewrite !orb_false_r. intros <-%String.eqb_eq <-%String.eqb_eq _.
    reflexivity.
  - intros [Ea%String.eqb_eq | Ea]%orb_true_iff Hb Hlen.
    + subst a. exact Hb.
    + apply orb_true_iff in Hb as [Eb%String.eqb_eq | Eb].
      * subst b. apply endswith_length in Ea. cbn [String.length] in Hlen. lia.
      * exact (IH Ea Eb Hlen).
Qed.

End Endswith.

(** ** Scanning a suffix table *)

Section Tables.

Lemma first_suffix_Some domain table v :
  first_suffix domain table = Some v →
  ∃ i, In (i, v) table ∧ Py.endswith domain i = true.
Proof.
  induction table as [|[i w] rest IH]; simpl; [discriminate|].
  destruct (Py.endswith domain i) eqn:E.
  - intros [= <-]. exists i. auto.
  - intros Hv. destruct (IH Hv) as (j & Hin & Hj). exists j. auto.
Qed.

Lemma first_suffix_None domain table :
  first_suffix domain table = None →
  ∀ i v, In (i, v) table → Py.endswith domain i = false.
Proof.
  induction table as [|[j w] rest IH]; simpl; [tauto|].
  destruct (Py.endswith domain j) eqn:E; [discriminate|].
  intros Hn i v [[= <- <-] | Hin]; eauto.
Qed.

Lemma unambiguous_In table i v j w :
  unambiguous table = true → In (i, v) table → In (j, w) table →
  Py.endswith i j = true → v = w.
Proof.
  unfold unambiguous. rewrite forallb_forall. intros HU Hi Hj E.
  specialize (HU _ Hi). rewrite forallb_forall in HU.
  specialize (HU _ Hj). simpl in HU. rewrite E in HU. simpl in HU.
  apply String.eqb_eq in HU. exact HU.
Qed.

Lemma first_suffix_unambiguous domain table i v :
  unambiguous table = true → In (i, v) table →
  Py.endswith domain i = true → first_suffix domain table = Some v.
Proof.
  intros HU Hin E.
  destruct (first_suffix domain table) as [w|] eqn:F.
  - apply first_suffix_Some in F as (j & Hj & Ej). f_equal.
    destruct (Nat.le_gt_cases (String.length j) (String.length i)) as [L|L].
    + symmetry. eapply (unambiguous_In table i v j w); eauto.
      eapply endswith_comparable; eauto.
    + eapply (unambiguous_In table j w i v); eauto.
      eapply endswith_comparable; eauto. lia.
  - rewrite (first_suffix_None _ _ F i v Hin) in E. discriminate.
Qed.

Lemma Map2Underscore_unambiguous : unambiguous Map2Underscore = true.
Proof. vm_compute. reflexivity. Qed.

(** A text that ends with [suf] matches no key that is at least as long
    as [suf] and does not itself end with [suf]. *)
Lemma first_suffix_excluded domain table suf :
  Py.endswith domain suf = true →
  forallb (λ e, (String.length suf <=? String.length e.1)
                && negb (Py.endswith e.1 suf)) table = true →
  first_suffix domain table = None.
Proof.
  intros E. induction table as [|[i v] rest IH]; simpl; [reflexivity|].
  intros [[L%Nat.leb_le N%negb_true_iff]%andb_true_iff Hr]%andb_true_iff.
  simpl in *. destruct (Py.endswith domain i) eqn:Ei; [|auto].
  rewrite (endswith_comparable domain i suf Ei E L) in N. discriminate.
Qed.

End Tables.

(** ** The suffix classifier *)

(** C1, as amended.  For every domain with more than two labels whose
    text ends with a suffix listed in the compound-suffix table, the
    classifier answers with the identifier the table gives that suffix,
    and leaves the label list as it was. *)
Theorem C1_compound_suffix_wins (domain : string) (d : list string)
    (i v : string) :
  2 < length d →
  In (i, v) Map2Underscore →
  Py.endswith domain i = true →
  filterTldToSupportedPattern domain d = Ok (v, d).
Proof.
  intros Hlen Hin E. unfold filterTldToSupportedPattern.
  apply Nat.ltb_lt in Hlen. rewrite Hlen.
  rewrite (first_suffix_unambiguous domain Map2Underscore i v
             Map2Underscore_unambiguous Hin E).
  reflexivity.
Qed.

(** [a.b.co.il] has four labels and ends with the table's [.co.il]: it
    classifies to [co_il]. *)
Lemma C1_co_il_witness :
  filterTldToSupportedPattern "a.b.co.il" ["a"; "b"; "co"; "il"]
  = Ok ("co_il", ["a"; "b"; "co"; "il"]).
Proof.
  apply (C1_compound_suffix_wins "a.b.co.il" ["a"; "b"; "co"; "il"]
           ".co.il" "co_il").
  - simpl. lia.
  - right. left. reflexivity.
  - reflexivity.
Defined.

(** The table has no [.co.uk] key: [a.b.co.uk] matches nothing in it and
    classifies to the fallback identifier [uk], not to [co_uk]. *)
Lemma C1_co_uk_counterexample :
  Py.split "." "a.b.co.uk" = ["a"; "b"; "co"; "uk"]
  ∧ first_suffix "a.b.co.uk" Map2Underscore = None
  ∧ filterTldToSupportedPattern "a.b.co.uk" ["a"; "b"; "co"; "uk"]
    = Ok ("uk", ["a"; "b"; "co"; "uk"])
  ∧ filterTldToSupportedPattern "a.b.co.uk" ["a"; "b"; "co"; "uk"]
    ≠ Ok ("co_uk", ["a"; "b"; "co"; "uk"]).
Proof. repeat split; try reflexivity. vm_compute. discriminate. Qed.

(** C9.  The reserved-identifier table is matched against the whole
    text and its key [global] has no leading dot: every domain whose text
    ends with the letters [global] classifies to [global_], whatever its
    labels are. *)
Theorem C9_global_without_label_boundary (domain : string) (d : list string) :
  Py.endswith domain "global" = true →
  filterTldToSupportedPattern domain d = Ok ("global_", d).
Proof.
  intros E. unfold filterTldToSupportedPattern.
  rewrite (first_suffix_excluded domain Map2Underscore "global" E)
    by (vm_compute; reflexivity).
  assert (first_suffix domain PythonKeyWordMap = Some "global_") as ->.
  { simpl. rewrite E. reflexivity. }
  destruct (2 <? length d); reflexivity.
Qed.

(** [example.myglobal]: the last label is [myglobal], the identifier is
    [global_]. *)
Lemma C9_myglobal_witness :
  filterTldToSupportedPattern "example.myglobal" (Py.split "." "example.myglobal")
  = Ok ("global_", ["example"; "myglobal"]).
Proof.
  apply (C9_global_without_label_boundary "example.myglobal"
           ["example"; "myglobal"]).
  reflexivity.
Defined.

(** ** Built-in operations that cannot fail here *)

Section Builtins.

Lemma split_nonempty sep s : ∃ h t, Py.split sep s = h :: t.
Proof.
  induction s as [|c s (h & t & IH)]; simpl; [eauto|].
  destruct (Ascii.eqb c sep); [eauto|]. rewrite IH. eauto.
Qed.

(** Lines 214-218 never raise: [d[0]] reads a list that [split] made. *)
Lemma normalize_total domain :
  ∃ d0 rest,
    Py.split "." (Py.rstrip_dot (Py.strip (Py.lower domain))) = d0 :: rest
    ∧ normalize domain
      = Ok (Py.rstrip_dot (Py.strip (Py.lower domain)),
            if String.eqb d0 "www" then rest else d0 :: rest).
Proof.
  destruct (split_nonempty "." (Py.rstrip_dot (Py.strip (Py.lower domain))))
    as (d0 & rest & E).
  exists d0, rest. split; [exact E|].
  unfold normalize. rewrite E. cbn [Py.getitem lookup list_lookup rbind].
  destruct (String.eqb d0 "www"); reflexivity.
Qed.

Lemma getlast_Ok {A} (l : list A) x : Py.getlast l = Ok x → last l = Some x.
Proof. unfold Py.getlast. destruct (last l); congruence. Qed.

(** The classifier hands back a list as long as the one it was given. *)
Lemma filterTld_length domain d tld d' :
  filterTldToSupportedPattern domain d = Ok (tld, d') → length d' = length d.
Proof.
  unfold filterTldToSupportedPattern.
  destruct (if 2 <? length d then _ else _); [congruence|].
  destruct (first_suffix domain PythonKeyWordMap); [congruence|].
  destruct (first_suffix domain Utf8Map); [congruence|].
  destruct (Py.endswith domain ".name").
  - destruct (Py.getitem d 0) as [d0|]; [|discriminate]. simpl.
    unfold Py.setitem. destruct (decide (0 < length d)); [|discriminate].
    simpl. destruct (Py.getlast _); [|discriminate]. simpl.
    intros [= <- <-]. apply length_insert.
  - destruct (Py.getlast d); [|discriminate]. simpl. congruence.
Qed.

(** The only exception the classifier raises is [IndexError]. *)
Lemma filterTld_Raise domain d e :
  filterTldToSupportedPattern domain d = Raise e → e = IndexError.
Proof.
  unfold filterTldToSupportedPattern.
  destruct (if 2 <? length d then _ else _); [discriminate|].
  destruct (first_suffix domain PythonKeyWordMap); [discriminate|].
  destruct (first_suffix domain Utf8Map); [discriminate|].
  unfold Py.getitem, Py.setitem, Py.getlast.
  destruct (Py.endswith domain ".name").
  - destruct (d !! 0); simpl; [|congruence].
    destruct (decide (0 < length d)); simpl; [|congruence].
    destruct (last _); simpl; congruence.
  - destruct (last d); simpl; congruence.
Qed.

(** The only exception the codec raises is [UnicodeError]. *)
Lemma idna_encode_Raise f k e : idna_encode f k = Raise e → e = UnicodeError.
Proof.
  unfold idna_encode. destruct k; [discriminate|].
  destruct (all_ascii _).
  - destruct (idna_labels_ok _); congruence.
  - destruct (f _); congruence.
Qed.

Lemma punycode_Raise f d e :
  internationalizedDomainNameToPunyCode f d = Raise e → e = UnicodeError.
Proof.
  induction d as [|k d IH]; simpl; [discriminate|].
  destruct (idna_encode f k) eqn:E; simpl.
  - destruct (internationalizedDomainNameToPunyCode f d); simpl; [discriminate|].
    intros [= <-]. apply IH. reflexivity.
  - intros [= <-]. eapply idna_encode_Raise; eauto.
Qed.

Lemma punycode_length f d d' :
  internationalizedDomainNameToPunyCode f d = Ok d' → length d' = length d.
Proof.
  revert d'. induction d as [|k d IH]; simpl; intros d'.
  - intros [= <-]. reflexivity.
  - destruct (idna_encode f k); simpl; [|discriminate].
    destruct (internationalizedDomainNameToPunyCode f d); simpl; [|discriminate].
    intros [= <-]. simpl. f_equal. apply IH. reflexivity.
Qed.

End Builtins.

(** ** The shape of a run of [query] *)

Section Runs.
Context `{Collaborators}.

Variables (force : bool) (cache_file : option string) (slow_down : Z)
          (ignore_returncode : bool) (server : option string)
          (verbose with_cleanup_results : bool).

Abbreviation call_for d :=
  (Call.mk d force cache_file slow_down ignore_returncode server verbose).

Lemma attempts_cons x d m :
  Call.attempts (call_for (x :: d)) (S m)
  = call_for (x :: d) :: Call.attempts (call_for d) m.
Proof.
  unfold Call.attempts. cbn [seq fmap list_fmap]. f_equal.
  rewrite <- seq_shift, <- !list_fmap_compose. reflexivity.
Qed.

(** One turn of the loop, written without the monad. *)
Lemma query_while_unfold tld tldLevel d st :
  query_while tld tldLevel force cache_file slow_down ignore_returncode
    server verbose with_cleanup_results d st
  = let '(q, w1) := do_query (call_for d) (world st) in
    let st1 := mkSt w1 (calls st ++ [call_for d]) in
    match q with
    | Fails name => (Raise (Raised name), st1)
    | Returns q =>
        let '(pd, w2) := do_parse q tld d verbose with_cleanup_results w1 in
        let st2 := mkSt w2 (calls st1) in
        match pd with
        | Fails name => (Raise (Raised name), st2)
        | Returns pd =>
            match has_domain_name pd with
            | Raise e => (Raise e, st2)
            | Ok true =>
                match pd with
                | Some pd =>
                    let '(r, w3) := Domain pd verbose w2 in
                    (match r with
                     | Returns r => Ok (Some r)
                     | Fails name => Raise (Raised name)
                     end, mkSt w3 (calls st2))
                | None => (Ok None, st2)
                end
            | Ok false =>
                match d with
                | _ :: d' =>
                    if length tldLevel + 1 <? length d then
                      query_while tld tldLevel force cache_file slow_down
                        ignore_returncode server verbose
                        with_cleanup_results d' st2
                    else (Ok None, st2)
                | [] => (Ok None, st2)
                end
            end
        end
    end.
Proof.
  destruct d as [|x d']; cbn [query_while];
    unfold bind, call_do_query, effect, lift, ret.
  all: destruct (do_query _ _) as [[q|name] w1];
    cbn [of_outcome world calls]; [|reflexivity].
  all: destruct (do_parse _ _ _ _ _ _) as [[pd|name] w2];
    cbn [of_outcome world calls]; [|reflexivity].
  all: destruct (has_domain_name pd) as [[|]|e];
    [| try reflexivity; destruct (_ <? _); reflexivity | reflexivity].
  all: destruct pd as [pd|]; [|reflexivity].
  all: cbn [world calls].
  all: destruct (Domain pd verbose w2) as [[r|name] w3]; reflexivity.
Qed.

(** The loop tries [d], then [d[1:]], and so on, never more than
    [len(d) - (len(tldLevel) + 1)] times after the first attempt, with
    the same keyword arguments every time. *)
Lemma query_while_attempts tld tldLevel d st :
  ∃ r w m,
    m ≤ length d - (length tldLevel + 1)
    ∧ query_while tld tldLevel force cache_file slow_down ignore_returncode
        server verbose with_cleanup_results d st
      = (r, mkSt w (calls st ++ Call.attempts (call_for d) m)).
Proof.
  revert st. induction d as [|x d IH]; intros st;
    rewrite query_while_unfold;
    destruct (do_query _ _) as [[q|name] w1]; cbn [calls world];
    try (eexists _, _, 0; split; [lia | reflexivity]);
    destruct (do_parse _ _ _ _ _ _) as [[pd|name] w2]; cbn [calls world];
    try (eexists _, _, 0; split; [lia | reflexivity]);
    destruct (has_domain_name pd) as [[|]|e];
    try (eexists _, _, 0; split; [lia | reflexivity]).
  - destruct pd as [pd|]; [destruct (Domain _ _ _) as [r w3]|];
      eexists _, _, 0; (split; [lia | reflexivity]).
  - destruct pd as [pd|]; [destruct (Domain _ _ _) as [r w3]|];
      eexists _, _, 0; (split; [lia | reflexivity]).
  - destruct (length tldLevel + 1 <? length (x :: d)) eqn:L.
    + apply Nat.ltb_lt in L. cbn [length] in L.
      destruct (IH (mkSt w2 (calls st ++ [call_for (x :: d)])))
        as (r & w & m & Hm & ->).
      exists r, w, (S m). split; [cbn [length]; lia|].
      rewrite attempts_cons. cbn [calls]. rewrite <- app_assoc. reflexivity.
    + eexists _, _, 0. split; [lia | reflexivity].
Qed.

End Runs.

Section QueryRuns.
Context `{Collaborators}.

Variables (force : bool) (cache_file : option string) (slow_down : Z)
          (ignore_returncode : bool) (server : option string)
          (verbose with_cleanup_results : bool) (internationalized : PyVal).

(** The call the loop makes for the metadata [thisTld] and the labels
    [d]. *)
Abbreviation loop_call thisTld d :=
  (Call.mk d force (opt_str_or cache_file CACHE_FILE)
     (effective_slow_down
        (if (slow_down =? 0)%Z then SLOW_DOWN else slow_down) thisTld)
     ignore_returncode (effective_server server thisTld) verbose).

(** [query] on a string, written without the monad. *)
Lemma query_str_unfold domain st :
  query (PyStr domain) force cache_file slow_down ignore_returncode server
    verbose with_cleanup_results internationalized st
  = match normalize domain with
    | Raise e => (Raise e, st)
    | Ok (domain, d) =>
        if length d =? 1 then (Ok None, st) else
        match filterTldToSupportedPattern domain d with
        | Raise e => (Raise e, st)
        | Ok (tld, d) =>
            match TLD_RE !! tld with
            | None => (Raise (UnknownTld (unknown_tld_msg tld)), st)
            | Some thisTld =>
                if private_registry thisTld then
                  (Raise (WhoisPrivateRegistry private_registry_msg), st)
                else
                  match (if truthy internationalized
                            && isinstance_bool internationalized
                         then internationalizedDomainNameToPunyCode to_ascii d
                         else Ok d) with
                  | Raise e => (Raise e, st)
                  | Ok d =>
                      query_while tld (Py.split "_" tld) force
                        (opt_str_or cache_file CACHE_FILE)
                        (effective_slow_down
                           (if (slow_down =? 0)%Z then SLOW_DOWN else slow_down)
                           thisTld)
                        ignore_returncode (effective_server server thisTld)
                        verbose with_cleanup_results d st
                  end
            end
        end
    end.
Proof.
  unfold query, bind, lift, ret, raise.
  destruct (normalize domain) as [[dom d]|e]; [|reflexivity].
  destruct (length d =? 1); [reflexivity|].
  destruct (filterTldToSupportedPattern dom d) as [[tld d1]|e]; [|reflexivity].
  destruct (TLD_RE !! tld) as [thisTld|]; [|reflexivity].
  destruct (private_registry thisTld); [reflexivity|].
  destruct (truthy internationalized && isinstance_bool internationalized);
    [|reflexivity].
  destruct (internationalizedDomainNameToPunyCode to_ascii d1); reflexivity.
Qed.

(** Every run of [query] on a string ends, and its executor calls are
    either none, or the attempts of the loop on a list as long as the
    normalized label list. *)
Lemma query_trace domain st :
  ∃ r st',
    query (PyStr domain) force cache_file slow_down ignore_returncode server
      verbose with_cleanup_results internationalized st = (r, st')
    ∧ (st' = st
       ∨ ∃ dom d tld d1 thisTld d2 m,
           normalize domain = Ok (dom, d)
           ∧ filterTldToSupportedPattern dom d = Ok (tld, d1)
           ∧ TLD_RE !! tld = Some thisTld
           ∧ length d2 = length d
           ∧ m ≤ length d - (length (Py.split "_" tld) + 1)
           ∧ calls st'
             = calls st ++ Call.attempts (loop_call thisTld d2) m).
Proof.
  rewrite query_str_unfold.
  destruct (normalize domain) as [[dom d]|e] eqn:EN; [|eauto].
  destruct (length d =? 1); [eauto|].
  destruct (filterTldToSupportedPattern dom d) as [[tld d1]|e] eqn:EF; [|eauto].
  destruct (TLD_RE !! tld) as [thisTld|] eqn:ET; [|eauto].
  destruct (private_registry thisTld); [eauto|].
  pose proof (filterTld_length _ _ _ _ EF) as L1.
  assert (∃ d2, length d2 = length d ∧
            ∀ r, (if truthy internationalized && isinstance_bool internationalized
                  then internationalizedDomainNameToPunyCode to_ascii d1
                  else Ok d1) = Ok r → r = d2) as (d2 & L2 & Hd2).
  { destruct (truthy internationalized && isinstance_bool internationalized).
    - destruct (internationalizedDomainNameToPunyCode to_ascii d1) as [r|e] eqn:EP.
      + exists r. split; [|congruence].
        rewrite (punycode_length _ _ _ EP). exact L1.
      + exists d. split; [reflexivity|discriminate].
    - exists d1. split; [exact L1|congruence]. }
  destruct (if truthy internationalized && isinstance_bool internationalized
            then _ else _) as [r|e]; [|eauto].
  rewrite (Hd2 r eq_refl).
  destruct (query_while_attempts force (opt_str_or cache_file CACHE_FILE)
              (effective_slow_down
                 (if (slow_down =? 0)%Z then SLOW_DOWN else slow_down) thisTld)
              ignore_returncode (effective_server server thisTld) verbose
              with_cleanup_results tld (Py.split "_" tld) d2 st)
    as (res & w & m & Hm & E).
  rewrite E. eexists _, _. split; [reflexivity|]. right.
  exists dom, d, tld, d1, thisTld, d2, m.
  rewrite <- L2. repeat split; auto.
Qed.

End QueryRuns.

(** ** Early exits of [query] *)

(** C3, at the input the code mishandles.  The bare token [www] is split
    into the single label [www], which line 218 drops; the list is then
    empty, the test [len(d) == 1] does not see it, and the classifier's
    [d[-1]] raises [IndexError].  No lookup is made, but the call does
    not return [None]. *)
Theorem C3_www_raises_IndexError `{Collaborators}
    (force : bool) (cache_file : option string) (slow_down : Z)
    (ignore_returncode : bool) (server : option string)
    (verbose with_cleanup_results : bool) (internationalized : PyVal)
    (st : St) :
  normalize "www" = Ok ("www", [])
  ∧ query (PyStr "www") force cache_file slow_down ignore_returncode server
      verbose with_cleanup_results internationalized st
    = (Raise IndexError, st).
Proof. split; [reflexivity|]. rewrite query_str_unfold. reflexivity. Qed.

(** A text that normalizes to a single label makes [query] return
    [None] with the world and the trace untouched. *)
Lemma query_single_label `{Collaborators}
    (force : bool) (cache_file : option string) (slow_down : Z)
    (ignore_returncode : bool) (server : option string)
    (verbose with_cleanup_results : bool) (internationalized : PyVal)
    (st : St) (domain dom label : string) :
  normalize domain = Ok (dom, [label]) →
  query (PyStr domain) force cache_file slow_down ignore_returncode server
    verbose with_cleanup_results internationalized st
  = (Ok None, st).
Proof. intros E. rewrite query_str_unfold, E. reflexivity. Qed.

(** Text without a dot stays without a dot through lines 214-215 and is
    split into one label: itself. *)
Section DotFree.

Lemma lower_char_dot c : Py.lower_char c = "."%char → c = "."%char.
Proof.
  destruct c as [[] [] [] [] [] [] [] []]; vm_compute; congruence.
Qed.

Lemma lower_dot_free s :
  Py.contains "." s = false → Py.contains "." (Py.lower s) = false.
Proof.
  induction s as [|c s IH]; [reflexivity|]. cbn [Py.contains Py.lower].
  intros [Hc Hs]%orb_false_iff. rewrite (IH Hs), orb_false_r.
  destruct (Ascii.eqb_spec (Py.lower_char c) ".") as [E|]; [|reflexivity].
  apply lower_char_dot in E. subst c. discriminate.
Qed.

Lemma lstrip_dot_free p s :
  Py.contains "." s = false → Py.contains "." (Py.lstrip_by p s) = false.
Proof.
  induction s as [|c s IH]; [reflexivity|]. cbn [Py.lstrip_by].
  intros Hs. destruct (p c); [|exact Hs].
  cbn [Py.contains] in Hs. apply orb_false_iff in Hs as [_ Hs]. auto.
Qed.

Lemma rstrip_dot_free p s :
  Py.contains "." s = false → Py.contains "." (Py.rstrip_by p s) = false.
Proof.
  induction s as [|c s IH]; [reflexivity|]. cbn [Py.rstrip_by Py.contains].
  intros [Hc Hs]%orb_false_iff. specialize (IH Hs).
  destruct (Py.rstrip_by p s) as [|b r].
  - destruct (p c); [reflexivity|]. cbn [Py.contains]. rewrite Hc. reflexivity.
  - cbn [Py.contains] in *. rewrite Hc. exact IH.
Qed.

Lemma split_dot_free s : Py.contains "." s = false → Py.split "." s = [s].
Proof.
  induction s as [|c s IH]; [reflexivity|]. cbn [Py.contains Py.split].
  intros [Hc Hs]%orb_false_iff. rewrite Hc, (IH Hs). reflexivity.
Qed.

Lemma normalize_dot_free domain :
  Py.contains "." domain = false →
  let text := Py.rstrip_dot (Py.strip (Py.lower domain)) in
  normalize domain = Ok (text, if String.eqb text "www" then [] else [text]).
Proof.
  intros Hd text. unfold normalize. fold text.
  assert (Py.contains "." text = false) as Ht.
  { apply rstrip_dot_free, rstrip_dot_free, lstrip_dot_free, lower_dot_free, Hd. }
  rewrite (split_dot_free text Ht). cbn [Py.getitem lookup list_lookup rbind].
  destruct (String.eqb text "www"); reflexivity.
Qed.

End DotFree.

(** On a domain without a dot [query] makes no lookup; it returns
    [None], unless the text normalizes to [www], when it raises
    [IndexError]. *)
Lemma query_dot_free `{Collaborators}
    (force : bool) (cache_file : option string) (slow_down : Z)
    (ignore_returncode : bool) (server : option string)
    (verbose with_cleanup_results : bool) (internationalized : PyVal)
    (st : St) (domain : string) :
  Py.contains "." domain = false →
  query (PyStr domain) force cache_file slow_down ignore_returncode server
    verbose with_cleanup_results internationalized st
  = (if String.eqb (Py.rstrip_dot (Py.strip (Py.lower domain))) "www"
     then Raise IndexError else Ok None, st).
Proof.
  intros Hd. rewrite query_str_unfold, (normalize_dot_free domain Hd).
  destruct (String.eqb_spec (Py.rstrip_dot (Py.strip (Py.lower domain))) "www")
    as [->|]; reflexivity.
Qed.

(** C4.  When the identifier the classifier gives for a domain is not a
    key of [TLD_RE], [query] raises [UnknownTld]; the state it ends in is
    the state it started in, so the executor was not called. *)
Theorem C4_unknown_tld_before_lookup `{Collaborators}
    (force : bool) (cache_file : option string) (slow_down : Z)
    (ignore_returncode : bool) (server : option string)
    (verbose with_cleanup_results : bool) (internationalized : PyVal)
    (st : St) (domain dom : string) (d d' : list string) (tld : string) :
  normalize domain = Ok (dom, d) →
  length d ≠ 1 →
  filterTldToSupportedPattern dom d = Ok (tld, d') →
  TLD_RE !! tld = None →
  query (PyStr domain) force cache_file slow_down ignore_returncode server
    verbose with_cleanup_results internationalized st
  = (Raise (UnknownTld (unknown_tld_msg tld)), st).
Proof.
  intros EN L EF ET. rewrite query_str_unfold, EN.
  apply Nat.eqb_neq in L. rewrite L, EF, ET. reflexivity.
Qed.

Lemma C4_faketld_witness :
  Stub.run "nonexistent.faketld"
  = (Raise (UnknownTld (unknown_tld_msg "faketld")), Stub.st0).
Proof.
  apply (@C4_unknown_tld_before_lookup Stub.env false None 0%Z false None
           false false (PyBool false) Stub.st0 "nonexistent.faketld"
           "nonexistent.faketld" ["nonexistent"; "faketld"]
           ["nonexistent"; "faketld"] "faketld").
  - reflexivity.
  - simpl. lia.
  - reflexivity.
  - vm_compute. reflexivity.
Defined.

(** C5.  When the metadata of the domain's identifier carries the
    private-registry flag, [query] raises [WhoisPrivateRegistry] and ends
    in the state it started in: no lookup was attempted. *)
Theorem C5_private_registry_before_lookup `{Collaborators}
    (force : bool) (cache_file : option string) (slow_down : Z)
    (ignore_returncode : bool) (server : option string)
    (verbose with_cleanup_results : bool) (internationalized : PyVal)
    (st : St) (domain dom : string) (d d' : list string) (tld : string)
    (thisTld : TldMeta) :
  normalize domain = Ok (dom, d) →
  length d ≠ 1 →
  filterTldToSupportedPattern dom d = Ok (tld, d') →
  TLD_RE !! tld = Some thisTld →
  _privateRegistry thisTld = Some true →
  query (PyStr domain) force cache_file slow_down ignore_returncode server
    verbose with_cleanup_results internationalized st
  = (Raise (WhoisPrivateRegistry private_registry_msg), st).
Proof.
  intros EN L EF ET EP. rewrite query_str_unfold, EN.
  apply Nat.eqb_neq in L. rewrite L, EF, ET.
  unfold private_registry. rewrite EP. reflexivity.
Qed.

Lemma C5_closed_witness :
  Stub.run "example.closed"
  = (Raise (WhoisPrivateRegistry private_registry_msg), Stub.st0).
Proof.
  apply (@C5_private_registry_before_lookup Stub.env false None 0%Z false
           None false false (PyBool false) Stub.st0 "example.closed"
           "example.closed" ["example"; "closed"] ["example"; "closed"]
           "closed"
           {| _privateRegistry := Some true; _server := None;
              _slowdown := None |}).
  - reflexivity.
  - simpl. lia.
  - reflexivity.
  - vm_compute. reflexivity.
  - reflexivity.
Defined.

(** ** The type check on [domain] *)

Section Assertion.
Context `{Collaborators}.

Lemma has_domain_name_Raise pd e msg :
  has_domain_name pd = Raise e → e ≠ AssertionError msg.
Proof.
  unfold has_domain_name. destruct pd as [pd|]; [|discriminate].
  destruct (bool_decide _); [discriminate|].
  destruct (pd !! "domain_name") as [v|]; [|congruence].
  destruct v as [| | |[|b l]|[|c s]|[|x l]]; simpl; congruence.
Qed.

(** No exception that leaves the loop is the [AssertionError] of line
    209: the loop raises what a collaborator or a subscript raised. *)
Lemma query_while_no_assertion tld tldLevel force cache_file slow_down
    ignore_returncode server verbose with_cleanup_results d st msg :
  (query_while tld tldLevel force cache_file slow_down ignore_returncode
     server verbose with_cleanup_results d st).1
  ≠ Raise (AssertionError msg).
Proof.
  revert st. induction d as [|x d IH]; intros st;
    rewrite query_while_unfold;
    destruct (do_query _ _) as [[q|name] w1]; [|discriminate| |discriminate];
    destruct (do_parse _ _ _ _ _ _) as [[pd|name] w2];
      [|discriminate| |discriminate];
    (destruct (has_domain_name pd) as [[|]|e] eqn:E;
      [ destruct pd as [pd|]; [destruct (Domain _ _ _) as [[r|name] w3]|];
        discriminate
      |
      | simpl; intros [= ->]; exact (has_domain_name_Raise _ _ msg E eq_refl) ]).
  - discriminate.
  - destruct (_ <? _); [apply IH | discriminate].
Qed.

End Assertion.

(** C10.  A [domain] that is not a [str] makes [query] raise the
    [AssertionError] of line 209 in the state it was called in, before
    anything else runs; a [domain] that is a [str] never ends in an
    [AssertionError]. *)
Theorem C10_domain_must_be_str `{Collaborators}
    (force : bool) (cache_file : option string) (slow_down : Z)
    (ignore_returncode : bool) (server : option string)
    (verbose with_cleanup_results : bool) (internationalized : PyVal)
    (st : St) (domain : PyVal) :
  (isinstance_str domain = false →
   query domain force cache_file slow_down ignore_returncode server verbose
     with_cleanup_results internationalized st
   = (Raise (AssertionError "`domain` - must be <str>"), st))
  ∧ (isinstance_str domain = true →
     ∀ msg,
       (query domain force cache_file slow_down ignore_returncode server
          verbose with_cleanup_results internationalized st).1
       ≠ Raise (AssertionError msg)).
Proof.
  split.
  - destruct domain; simpl; first [discriminate | reflexivity].
  - destruct domain as [| | | |s|]; try (cbn [isinstance_str]; discriminate).
    intros _ msg.
    rewrite query_str_unfold.
    destruct (normalize_total s) as (d0 & rest & _ & ->).
    destruct (length _ =? 1); [discriminate|].
    destruct (filterTldToSupportedPattern _ _) as [[tld d1]|e] eqn:EF.
    + destruct (TLD_RE !! tld) as [thisTld|]; [|discriminate].
      destruct (private_registry thisTld); [discriminate|].
      destruct (if truthy internationalized && isinstance_bool internationalized
                then _ else _) as [d2|e] eqn:EP.
      * apply query_while_no_assertion.
      * destruct (truthy internationalized && isinstance_bool internationalized);
          [|discriminate].
        apply punycode_Raise in EP as ->. discriminate.
    + apply filterTld_Raise in EF as ->. discriminate.
Qed.

Lemma C10_int_and_str_witness :
  @query Stub.env (PyInt 42) false None 0%Z false None false false
    (PyBool false) Stub.st0
  = (Raise (AssertionError "`domain` - must be <str>"), Stub.st0)
  ∧ ∀ msg, (Stub.run "google.com").1 ≠ Raise (AssertionError msg).
Proof.
  split.
  - apply (@C10_domain_must_be_str Stub.env false None 0%Z false None false
             false (PyBool false) Stub.st0 (PyInt 42)).
    reflexivity.
  - apply (@C10_domain_must_be_str Stub.env false None 0%Z false None false
             false (PyBool false) Stub.st0 (PyStr "google.com")).
    reflexivity.
Defined.

(** ** The retry loop and its parameters *)

Section Attempts.

Lemma attempts_length c m : length (Call.attempts c m) = S m.
Proof. unfold Call.attempts. rewrite length_fmap, length_seq. reflexivity. Qed.

Lemma attempts_lookup c m i c' :
  Call.attempts c m !! i = Some c' → i ≤ m ∧ c' = Call.retry c i.
Proof.
  unfold Call.attempts. rewrite list_lookup_fmap.
  destruct (seq 0 (S m) !! i) as [j|] eqn:E; [|discriminate].
  apply lookup_seq in E as [-> L]. intros [= <-]. split; [lia|reflexivity].
Qed.

Lemma attempts_elem_of c m c' :
  c' ∈ Call.attempts c m → ∃ i, i ≤ m ∧ c' = Call.retry c i.
Proof.
  intros [i Hi]%list_elem_of_lookup. exists i. eapply attempts_lookup; eauto.
Qed.

End Attempts.

(** C2, as amended.  For a query whose normalized label list has length
    [n] and whose identifier splits on [_] into [k] labels, [query]
    ends; it calls the executor at most [1 + (n - (k + 1))] times (the
    difference cut off at zero); call number [i] receives the label list
    without its first [i] labels; every retry receives at least [k + 1]
    labels, and so does the first call when [n] is at least [k + 1]. *)
Theorem C2_progressive_retry_bounded `{Collaborators}
    (force : bool) (cache_file : option string) (slow_down : Z)
    (ignore_returncode : bool) (server : option string)
    (verbose with_cleanup_results : bool) (internationalized : PyVal)
    (st : St) (domain dom : string) (d d1 : list string) (tld : string) :
  normalize domain = Ok (dom, d) →
  filterTldToSupportedPattern dom d = Ok (tld, d1) →
  let n := length d in
  let k := length (Py.split "_" tld) in
  ∃ r st' d0 new,
    query (PyStr domain) force cache_file slow_down ignore_returncode server
      verbose with_cleanup_results internationalized st = (r, st')
    ∧ calls st' = calls st ++ new
    ∧ length d0 = n
    ∧ length new ≤ 1 + (n - (k + 1))
    ∧ (∀ i c, new !! i = Some c → Call.dl c = drop i d0)
    ∧ (∀ i c, new !! i = Some c → 0 < i → k + 1 ≤ length (Call.dl c))
    ∧ (k + 1 ≤ n → ∀ c, c ∈ new → k + 1 ≤ length (Call.dl c)).
Proof.
  intros EN EF n k.
  destruct (query_trace force cache_file slow_down ignore_returncode server
              verbose with_cleanup_results internationalized domain st)
    as (r & st' & EQ & [-> | (dom' & d' & tld' & d1' & thisTld & d2 & m
                               & EN' & EF' & ET & L2 & Hm & EC)]).
  - exists r, st, d, []. rewrite app_nil_r.
    repeat split; auto; simpl; try lia.
    + intros i c Hi. rewrite lookup_nil in Hi. discriminate.
    + intros i c Hi. rewrite lookup_nil in Hi. discriminate.
    + intros _ c Hc. apply elem_of_nil in Hc. contradiction.
  - rewrite EN in EN'. injection EN' as <- <-.
    rewrite EF in EF'. injection EF' as <- <-.
    fold n in L2, Hm. fold k in Hm.
    exists r, st', d2. eexists.
    split; [exact EQ|]. split; [exact EC|]. split; [exact L2|].
    split; [rewrite attempts_length; lia|].
    split; [|split].
    + intros i c [_ ->]%attempts_lookup. reflexivity.
    + intros i c [Li ->]%attempts_lookup Hpos. cbn [Call.retry Call.dl].
      rewrite length_drop. lia.
    + intros Hn c (i & Li & ->)%attempts_elem_of. cbn [Call.retry Call.dl].
      rewrite length_drop. lia.
Qed.

Lemma C2_co_il_witness :
  ∃ r st' d0 new,
    Stub.run "sub.example.co.il" = (r, st')
    ∧ @calls Stub.env st' = [] ++ new
    ∧ length d0 = 4
    ∧ length new ≤ 1 + (4 - (2 + 1))
    ∧ (∀ i c, new !! i = Some c → Call.dl c = drop i d0)
    ∧ (∀ i c, new !! i = Some c → 0 < i → 2 + 1 ≤ length (Call.dl c))
    ∧ (2 + 1 ≤ 4 → ∀ c, c ∈ new → 2 + 1 ≤ length (Call.dl c)).
Proof.
  apply (@C2_progressive_retry_bounded Stub.env false None 0%Z false None
           false false (PyBool false) Stub.st0 "sub.example.co.il"
           "sub.example.co.il" ["sub"; "example"; "co"; "il"]
           ["sub"; "example"; "co"; "il"] "co_il").
  - reflexivity.
  - reflexivity.
Defined.

(** [a.is] has two labels and classifies to [is_], which splits on [_]
    into the two labels [is] and the empty string: the executor is
    called with two labels, fewer than [k + 1 = 3]. *)
Lemma C2_is_counterexample :
  normalize "a.is" = Ok ("a.is", ["a"; "is"])
  ∧ filterTldToSupportedPattern "a.is" ["a"; "is"] = Ok ("is_", ["a"; "is"])
  ∧ Py.split "_" "is_" = ["is"; ""]
  ∧ Stub.lookups (Stub.run "a.is").2 = [["a"; "is"]]
  ∧ ¬ (∀ l, l ∈ Stub.lookups (Stub.run "a.is").2 →
            length (Py.split "_" "is_") + 1 ≤ length l).
Proof.
  repeat split; try reflexivity.
  intros Hall. specialize (Hall ["a"; "is"]).
  assert (["a"; "is"] ∈ Stub.lookups (Stub.run "a.is").2) as Hin.
  { vm_compute. left. }
  specialize (Hall Hin). vm_compute in Hall. lia.
Qed.

(** C8, as amended.  Every call the executor receives during one query
    carries the same server and the same delay.  The server is the
    caller's when one was given, else the metadata's [_server] when that
    is present and not empty, else none; the delay is the caller's when
    it is not zero, else the metadata's [_slowdown] when that is present
    and positive, else zero. *)
Theorem C8_effective_server_and_delay `{Collaborators}
    (force : bool) (cache_file : option string) (slow_down : Z)
    (ignore_returncode : bool) (server : option string)
    (verbose with_cleanup_results : bool) (internationalized : PyVal)
    (st : St) (domain dom : string) (d d1 : list string) (tld : string)
    (thisTld : TldMeta) :
  normalize domain = Ok (dom, d) →
  filterTldToSupportedPattern dom d = Ok (tld, d1) →
  TLD_RE !! tld = Some thisTld →
  ∃ r st' new,
    query (PyStr domain) force cache_file slow_down ignore_returncode server
      verbose with_cleanup_results internationalized st = (r, st')
    ∧ calls st' = calls st ++ new
    ∧ ∀ c, c ∈ new →
        Call.server c
        = match server, _server thisTld with
          | Some s, _ => Some s
          | None, Some s => if decide (s = "") then None else Some s
          | None, None => None
          end
        ∧ Call.slow_down c
          = if decide (slow_down = 0)%Z then
              match _slowdown thisTld with
              | Some z => if decide (0 < z)%Z then z else 0%Z
              | None => 0%Z
              end
            else slow_down.
Proof.
  intros EN EF ET.
  destruct (query_trace force cache_file slow_down ignore_returncode server
              verbose with_cleanup_results internationalized domain st)
    as (r & st' & EQ & [-> | (dom' & d' & tld' & d1' & thisTld' & d2 & m
                               & EN' & EF' & ET' & L2 & Hm & EC)]).
  - exists r, st, []. rewrite app_nil_r.
    split; [exact EQ|]. split; [reflexivity|].
    intros c Hc. apply elem_of_nil in Hc. contradiction.
  - rewrite EN in EN'. injection EN' as <- <-.
    rewrite EF in EF'. injection EF' as <- <-.
    rewrite ET in ET'. injection ET' as <-.
    exists r, st'. eexists.
    split; [exact EQ|]. split; [exact EC|].
    intros c (i & _ & ->)%attempts_elem_of.
    cbn [Call.retry Call.server Call.slow_down]. split.
    + unfold effective_server.
      destruct server as [s|]; [reflexivity|].
      destruct (_server thisTld) as [[|c s]|]; reflexivity.
    + unfold effective_slow_down, SLOW_DOWN.
      destruct (decide (slow_down = 0)%Z) as [->|Hne].
      * cbn [Z.eqb andb]. destruct (_slowdown thisTld) as [z|]; [|reflexivity].
        cbn [truthy]. destruct (decide (0 < z)%Z) as [Hz|Hz].
        -- apply Z.ltb_lt in Hz as Hz'. rewrite Hz'.
           destruct (Z.eqb_spec z 0); [lia|reflexivity].
        -- destruct (Z.ltb_spec 0 z); [lia|]. rewrite andb_false_r. reflexivity.
      * apply Z.eqb_neq in Hne. rewrite Hne.
        destruct (_slowdown thisTld); [rewrite Hne|]; reflexivity.
Qed.

Lemma C8_hinted_witness :
  ∃ r st' new,
    @query Stub.env (PyStr "example.hinted") false None 0%Z false None false
      false (PyBool false) Stub.st0 = (r, st')
    ∧ @calls Stub.env st' = [] ++ new
    ∧ ∀ c, c ∈ new →
        Call.server c = Some "whois.nic.hinted" ∧ Call.slow_down c = 5%Z.
Proof.
  apply (@C8_effective_server_and_delay Stub.env false None 0%Z false None
           false false (PyBool false) Stub.st0 "example.hinted"
           "example.hinted" ["example"; "hinted"] ["example"; "hinted"]
           "hinted"
           {| _privateRegistry := Some false;
              _server := Some "whois.nic.hinted";
              _slowdown := Some 5%Z |}).
  - reflexivity.
  - reflexivity.
  - vm_compute. reflexivity.
Defined.

(** The entry [odd] has a [_slowdown] of -1 and an empty [_server].
    With the caller's delay at zero and no caller's server, the executor
    is called with delay 0 and no server: neither is the metadata's
    value, although both are present. *)
Lemma C8_odd_counterexample :
  ∃ thisTld c,
    @TLD_RE Stub.env !! "odd" = Some thisTld
    ∧ _slowdown thisTld = Some (-1)%Z
    ∧ _server thisTld = Some ""
    ∧ @calls Stub.env (Stub.run "example.odd").2 = [c]
    ∧ Call.slow_down c = 0%Z
    ∧ Call.slow_down c ≠ (-1)%Z
    ∧ Call.server c = None
    ∧ Call.server c ≠ Some "".
Proof.
  eexists _, _. split; [vm_compute; reflexivity|].
  repeat split; try reflexivity; vm_compute; discriminate.
Qed.

(** ** The label normalizer *)

Section Normalizer.

Lemma rstrip_by_split p s :
  ∃ n, ∀ c, (∀ a, p a = true → a = c) →
       s = Py.rstrip_by p s +:+ Py.repeat_char c n.
Proof.
  induction s as [|a s (n & IH)].
  - exists 0. reflexivity.
  - cbn [Py.rstrip_by]. destruct (Py.rstrip_by p s) as [|b r] eqn:E.
    + destruct (p a) eqn:Pa.
      * exists (S n). intros c Hc. rewrite (Hc a Pa).
        exact (f_equal (String c) (IH c Hc)).
      * exists n. intros c Hc. exact (f_equal (String a) (IH c Hc)).
    + exists n. intros c Hc. exact (f_equal (String a) (IH c Hc)).
Qed.

(** What [rstrip] leaves does not end with a character of the set. *)
Lemma rstrip_by_last p s u c :
  Py.rstrip_by p s = u +:+ String c EmptyString → p c = false.
Proof.
  revert u. induction s as [|a s IH]; intros u; cbn [Py.rstrip_by].
  - destruct u; discriminate.
  - destruct (Py.rstrip_by p s) as [|b r] eqn:E.
    + destruct (p a) eqn:Pa.
      * destruct u; discriminate.
      * destruct u as [|x [|y u]]; cbn; intros [=]; subst; auto.
    + destruct u as [|x u]; cbn; [intros [=]|].
      intros [= -> Hr]. eapply IH. exact Hr.
Qed.

Lemma rstrip_dot_no_trailing_dot s : Py.endswith (Py.rstrip_dot s) "." = false.
Proof.
  destruct (Py.endswith (Py.rstrip_dot s) ".") eqn:E; [|reflexivity].
  apply endswith_spec in E as [pre E].
  apply rstrip_by_last in E. discriminate.
Qed.

(** Removing every trailing dot and removing one agree on a text that
    does not end with two dots. *)
Lemma rstrip_dot_single s :
  Py.endswith s ".." = false →
  Py.rstrip_dot s = strip_single_trailing_dot s.
Proof.
  unfold Py.rstrip_dot. induction s as [|a s IH]; [reflexivity|].
  intros E. cbn [Py.rstrip_by strip_single_trailing_dot].
  destruct s as [|b s]; [reflexivity|].
  assert (Py.endswith (String b s) ".." = false) as E'.
  { destruct (Py.endswith (String b s) "..") eqn:F; [|reflexivity].
    rewrite (endswith_cons a _ _ F) in E. discriminate. }
  rewrite (IH E').
  destruct (strip_single_trailing_dot (String b s)) as [|x r] eqn:F;
    [|reflexivity].
  cbn [strip_single_trailing_dot] in F. destruct s as [|c s]; [|discriminate].
  destruct (Ascii.eqb_spec b "."); [subst b|discriminate].
  destruct (Ascii.eqb_spec a "."); [subst a; discriminate|reflexivity].
Qed.

End Normalizer.

(** C6, as amended.  Normalization never fails and is the composition
    of: lower-casing; stripping the white space at both ends; removing
    every trailing dot (what is removed is a run of dots and what is left
    does not end with a dot); splitting on the dot; dropping a first
    label [www].  On a text that does not end with two dots this is the
    normalizer that removes a single trailing dot. *)
Theorem C6_normalize_steps (domain : string) :
  let stripped := Py.strip (Py.lower domain) in
  let text := Py.rstrip_dot stripped in
  ∃ d0 rest,
    Py.split "." text = d0 :: rest
    ∧ normalize domain
      = Ok (text, if String.eqb d0 "www" then rest else d0 :: rest)
    ∧ (∃ n, stripped = text +:+ Py.repeat_char "." n)
    ∧ Py.endswith text "." = false
    ∧ (Py.endswith stripped ".." = false →
       normalize domain = normalize_spec domain).
Proof.
  intros stripped text.
  destruct (normalize_total domain) as (d0 & rest & ES & EN).
  exists d0, rest. split; [exact ES|]. split; [exact EN|].
  split; [|split].
  - destruct (rstrip_by_split (λ c, Ascii.eqb c ".") stripped) as [n Hn].
    exists n. apply Hn. intros a Ha. apply Ascii.eqb_eq. exact Ha.
  - apply rstrip_dot_no_trailing_dot.
  - intros E. unfold normalize, normalize_spec.
    fold stripped. rewrite (rstrip_dot_single stripped E). reflexivity.
Qed.

(** [a.b..] ends with two dots.  The code removes both and finds two
    labels; removing a single dot would leave [a.b.] and three labels,
    the last one empty. *)
Lemma C6_two_dots_counterexample :
  normalize "a.b.." = Ok ("a.b", ["a"; "b"])
  ∧ normalize_spec "a.b.." = Ok ("a.b.", ["a"; "b"; ""])
  ∧ normalize "a.b.." ≠ normalize_spec "a.b..".
Proof. repeat split; try reflexivity. vm_compute. discriminate. Qed.

(** ** The internationalization converter *)

Section Punycode.
Variable f : string → option string.

Lemma punycode_Ok d d' :
  internationalizedDomainNameToPunyCode f d = Ok d' ↔
  Forall2 (λ k k', ∃ x, idna_encode f k = Ok x ∧ k' = str_or x k) d d'.
Proof.
  revert d'. induction d as [|k d IH]; intros d'; cbn.
  - split; [intros [= <-]; constructor | intros ->%Forall2_nil_inv_l; reflexivity].
  - split.
    + destruct (idna_encode f k) as [x|] eqn:E; cbn; [|discriminate].
      destruct (internationalizedDomainNameToPunyCode f d) as [r|] eqn:R;
        cbn; [|discriminate].
      intros [= <-]. constructor; [eauto|]. apply IH. reflexivity.
    + intros (k' & r & (x & E & ->) & HF & ->)%Forall2_cons_inv_l.
      rewrite E. cbn. apply IH in HF. rewrite HF. reflexivity.
Qed.

Lemma punycode_fails d k e :
  k ∈ d → idna_encode f k = Raise e →
  internationalizedDomainNameToPunyCode f d = Raise UnicodeError.
Proof.
  intros Hin E.
  destruct (internationalizedDomainNameToPunyCode f d) as [d'|e'] eqn:R.
  - apply punycode_Ok in R.
    destruct (list_elem_of_lookup_1 _ _ Hin) as [i Hi].
    destruct (Forall2_lookup_l _ _ _ _ _ R Hi) as (k' & _ & x & Ex & _).
    congruence.
  - apply punycode_Raise in R as ->. reflexivity.
Qed.

End Punycode.

(** C7, as amended.  The conversion succeeds exactly when every label
    encodes; each label is then replaced, on its own, by its encoding,
    or kept as it is when that encoding is the empty string.  A label
    the codec rejects is not passed through: the whole conversion raises
    [UnicodeError].  In [query], with [internationalized=True] and a
    domain whose identifier is in the registry and not private, the
    labels [d] that the classifier leaves are converted before the loop:
    when a label of [d] is rejected, [query] raises [UnicodeError] in the
    state it started in, before any lookup; when the conversion gives
    [d'], every lookup of the loop is made on [d'] and its tails. *)
Theorem C7_labels_encoded_or_UnicodeError `{Collaborators}
    (f : string → option string) (d : list string) :
  (∀ d',
     internationalizedDomainNameToPunyCode f d = Ok d' ↔
     Forall2 (λ k k', ∃ x, idna_encode f k = Ok x ∧ k' = str_or x k) d d')
  ∧ (∀ d', internationalizedDomainNameToPunyCode f d = Ok d' →
           length d' = length d)
  ∧ (∀ k e, k ∈ d → idna_encode f k = Raise e →
            internationalizedDomainNameToPunyCode f d = Raise UnicodeError)
  ∧ (∀ (force : bool) (cache_file : option string) (slow_down : Z)
       (ignore_returncode : bool) (server : option string)
       (verbose with_cleanup_results : bool) (st : St)
       (domain dom : string) (d0 : list string) (tld : string)
       (thisTld : TldMeta),
       normalize domain = Ok (dom, d0) →
       length d0 ≠ 1 →
       filterTldToSupportedPattern dom d0 = Ok (tld, d) →
       TLD_RE !! tld = Some thisTld →
       private_registry thisTld = false →
       (∀ k e, k ∈ d → idna_encode to_ascii k = Raise e →
               query (PyStr domain) force cache_file slow_down
                 ignore_returncode server verbose with_cleanup_results
                 (PyBool true) st
               = (Raise UnicodeError, st))
       ∧ (∀ d', internationalizedDomainNameToPunyCode to_ascii d = Ok d' →
                ∃ r w m,
                  query (PyStr domain) force cache_file slow_down
                    ignore_returncode server verbose with_cleanup_results
                    (PyBool true) st
                  = (r, mkSt w
                          (calls st
                           ++ Call.attempts
                                (Call.mk d' force
                                   (opt_str_or cache_file CACHE_FILE)
                                   (effective_slow_down
                                      (if (slow_down =? 0)%Z
                                       then SLOW_DOWN else slow_down) thisTld)
                                   ignore_returncode
                                   (effective_server server thisTld) verbose)
                                m)))).
Proof.
  split; [|split; [|split]].
  - intros d'. apply punycode_Ok.
  - intros d'. apply punycode_length.
  - intros k e. apply punycode_fails.
  - intros force cache_file slow_down ignore_returncode server verbose
      with_cleanup_results st domain dom d0 tld thisTld EN L EF ET EP.
    apply Nat.eqb_neq in L.
    assert (∀ r : result (list string),
              internationalizedDomainNameToPunyCode to_ascii d = r →
              query (PyStr domain) force cache_file slow_down
                ignore_returncode server verbose with_cleanup_results
                (PyBool true) st
              = match r with
                | Raise e => (Raise e, st)
                | Ok d' =>
                    query_while tld (Py.split "_" tld) force
                      (opt_str_or cache_file CACHE_FILE)
                      (effective_slow_down
                         (if (slow_down =? 0)%Z then SLOW_DOWN else slow_down)
                         thisTld)
                      ignore_returncode (effective_server server thisTld)
                      verbose with_cleanup_results d' st
                end) as HQ.
    { intros r Hr. rewrite query_str_unfold, EN, L, EF, ET, EP.
      cbn [truthy isinstance_bool andb]. rewrite Hr. reflexivity. }
    split.
    + intros k e Hk Ek.
      rewrite (HQ _ (punycode_fails to_ascii d k e Hk Ek)). reflexivity.
    + intros d' Hd'. rewrite (HQ _ Hd').
      destruct (query_while_attempts force (opt_str_or cache_file CACHE_FILE)
                  (effective_slow_down
                     (if (slow_down =? 0)%Z then SLOW_DOWN else slow_down)
                     thisTld)
                  ignore_returncode (effective_server server thisTld) verbose
                  with_cleanup_results tld (Py.split "_" tld) d' st)
        as (r & w & m & _ & E).
      exists r, w, m. exact E.
Qed.

(** With [internationalized=True], the label of 64 letters in front of
    [.com] ends [query] with [UnicodeError] and no lookup; the labels of
    [sub.example.co.il] are converted to themselves and looked up. *)
Lemma C7_query_witness :
  @query Stub.env (PyStr (Stub.long_label +:+ ".com")) false None 0%Z
    false None false false (PyBool true) Stub.st0
  = (Raise UnicodeError, Stub.st0)
  ∧ ∃ r w m,
      @query Stub.env (PyStr "sub.example.co.il") false None 0%Z false None
        false false (PyBool true) Stub.st0
      = (r, @mkSt Stub.env w
              ([] ++ Call.attempts
                       (Call.mk ["sub"; "example"; "co"; "il"] false None
                          0%Z false None false) m)).
Proof.
  split.
  - apply (proj1 (proj2 (proj2 (proj2
             (@C7_labels_encoded_or_UnicodeError Stub.env (@to_ascii Stub.env)
                [Stub.long_label; "com"])))
             false None 0%Z false None false false Stub.st0
             (Stub.long_label +:+ ".com") (Stub.long_label +:+ ".com")
             [Stub.long_label; "com"] "com" Stub.plain
             eq_refl ltac:(simpl; lia) eq_refl
             ltac:(vm_compute; reflexivity) eq_refl)
           Stub.long_label UnicodeError).
    + left.
    + vm_compute. reflexivity.
  - apply (proj2 (proj2 (proj2 (proj2
             (@C7_labels_encoded_or_UnicodeError Stub.env (@to_ascii Stub.env)
                ["sub"; "example"; "co"; "il"])))
             false None 0%Z false None false false Stub.st0
             "sub.example.co.il" "sub.example.co.il"
             ["sub"; "example"; "co"; "il"] "co_il" Stub.plain
             eq_refl ltac:(simpl; lia) eq_refl
             ltac:(vm_compute; reflexivity) eq_refl)
           ["sub"; "example"; "co"; "il"]).
    reflexivity.
Defined.

(** A label of 64 letters is more than the codec accepts.  The
    conversion raises instead of keeping the label, and a [query] with
    [internationalized=True] ends with that [UnicodeError] before any
    lookup; the same [query] without the conversion does call the
    executor with the label. *)
Lemma C7_long_label_counterexample :
  idna_encode (@to_ascii Stub.env) Stub.long_label = Raise UnicodeError
  ∧ internationalizedDomainNameToPunyCode (@to_ascii Stub.env)
      [Stub.long_label; "com"]
    = Raise UnicodeError
  ∧ ¬ (∃ d', internationalizedDomainNameToPunyCode (@to_ascii Stub.env)
               [Stub.long_label; "com"] = Ok d'
             ∧ d' !! 0 = Some Stub.long_label)
  ∧ @query Stub.env (PyStr (Stub.long_label +:+ ".com")) false None 0%Z
      false None false false (PyBool true) Stub.st0
    = (Raise UnicodeError, Stub.st0)
  ∧ Stub.lookups (Stub.run (Stub.long_label +:+ ".com")).2
    = [[Stub.long_label; "com"]].
Proof.
  repeat split; try (vm_compute; reflexivity).
  intros (d' & E & _). vm_compute in E. discriminate.
Qed.

(** * Further properties of the module *)

(** ** The three suffix tables together *)

Section AllTables.

Lemma apart_In t1 t2 i v j w :
  apart t1 t2 = true → In (i, v) t1 → In (j, w) t2 →
  Py.endswith i j = false ∧ Py.endswith j i = false.
Proof.
  unfold apart. rewrite forallb_forall. intros HA Hi Hj.
  specialize (HA _ Hi). rewrite forallb_forall in HA.
  specialize (HA _ Hj). cbn [fst] in HA.
  apply andb_true_iff in HA as [A B].
  apply negb_true_iff in A, B. auto.
Qed.

(** A text that ends with a key of [t1] matches no key of a table that
    is apart from [t1]. *)
Lemma apart_first_suffix t1 t2 domain i v :
  apart t1 t2 = true → In (i, v) t1 → Py.endswith domain i = true →
  first_suffix domain t2 = None.
Proof.
  intros HA Hi E.
  destruct (first_suffix domain t2) as [w|] eqn:F; [|reflexivity].
  apply first_suffix_Some in F as (j & Hj & Ej).
  destruct (apart_In _ _ _ _ _ _ HA Hi Hj) as [A B].
  destruct (Nat.le_gt_cases (String.length j) (String.length i)) as [L|L].
  - rewrite (endswith_comparable domain i j E Ej L) in A. discriminate.
  - rewrite (endswith_comparable domain j i Ej E) in B by lia. discriminate.
Qed.

Lemma compound_hit domain d i v :
  2 < length d → In (i, v) Map2Underscore → Py.endswith domain i = true →
  filterTldToSupportedPattern domain d = Ok (v, d).
Proof.
  intros L%Nat.ltb_lt Hi E. unfold filterTldToSupportedPattern. rewrite L.
  rewrite (first_suffix_unambiguous _ _ _ _ Map2Underscore_unambiguous Hi E).
  reflexivity.
Qed.

Lemma reserved_hit domain d i v :
  In (i, v) (PythonKeyWordMap ++ Utf8Map) → Py.endswith domain i = true →
  filterTldToSupportedPattern domain d = Ok (v, d).
Proof.
  intros Hi E. unfold filterTldToSupportedPattern.
  rewrite (apart_first_suffix (PythonKeyWordMap ++ Utf8Map) Map2Underscore
             domain i v) by (auto; vm_compute; reflexivity).
  assert ((if 2 <? length d then None else None) = @None string) as ->
    by (destruct (2 <? length d); reflexivity).
  apply in_app_or in Hi as [Hi|Hi].
  - rewrite (first_suffix_unambiguous domain PythonKeyWordMap i v)
      by (auto; vm_compute; reflexivity).
    reflexivity.
  - rewrite (apart_first_suffix Utf8Map PythonKeyWordMap domain i v)
      by (auto; vm_compute; reflexivity).
    rewrite (first_suffix_unambiguous domain Utf8Map i v)
      by (auto; vm_compute; reflexivity).
    reflexivity.
Qed.

End AllTables.

(** X1.  The classifier raises only on an empty label list, and then
    only [IndexError]; on a non-empty list it returns an identifier and a
    list of the same length. *)
Theorem classifier_raises_only_on_empty_list (domain : string)
    (d : list string) :
  (d ≠ [] →
   ∃ tld d', filterTldToSupportedPattern domain d = Ok (tld, d')
             ∧ length d' = length d)
  ∧ (∀ e, filterTldToSupportedPattern domain d = Raise e →
          d = [] ∧ e = IndexError).
Proof.
  assert (d ≠ [] →
          ∃ tld d', filterTldToSupportedPattern domain d = Ok (tld, d')) as Hok.
  { intros Hd. unfold filterTldToSupportedPattern.
    destruct (if 2 <? length d then _ else _); [eauto|].
    destruct (first_suffix domain PythonKeyWordMap); [eauto|].
    destruct (first_suffix domain Utf8Map); [eauto|].
    destruct d as [|d0 rest]; [contradiction|].
    destruct (Py.endswith domain ".name").
    - cbn [Py.getitem lookup list_lookup rbind]. unfold Py.setitem.
      destruct (decide (0 < length (d0 :: rest))) as [_|N]; [|cbn in N; lia].
      cbn [rbind insert list_insert]. unfold Py.getlast.
      destruct (last_is_Some (("domain=" +:+ d0) :: rest)) as [_ Hl].
      destruct Hl as [x ->]; [discriminate|]. cbn. eauto.
    - unfold Py.getlast.
      destruct (last_is_Some (d0 :: rest)) as [_ Hl].
      destruct Hl as [x ->]; [discriminate|]. cbn. eauto. }
  split.
  - intros Hd. destruct (Hok Hd) as (tld & d' & E).
    exists tld, d'. split; [exact E|]. eapply filterTld_length; eauto.
  - intros e E. split; [|eapply filterTld_Raise; eauto].
    destruct d as [|d0 rest]; [reflexivity|].
    destruct Hok as (tld & d' & E'); [discriminate|]. congruence.
Qed.



(** X3.  A text that ends with a key of the reserved-word table or of
    the punycode table classifies to the identifier of that key, for any
    label list: no key of the compound table can match such a text, and
    the keys of the two tables cannot match one text with different
    identifiers. *)
Theorem classifier_reserved_and_punycode_suffixes (domain : string)
    (d : list string) (i v : string) :
  In (i, v) (PythonKeyWordMap ++ Utf8Map) →
  Py.endswith domain i = true →
  filterTldToSupportedPattern domain d = Ok (v, d).
Proof. apply reserved_hit. Qed.

Lemma classifier_reserved_and_punycode_suffixes_witness :
  filterTldToSupportedPattern "sub.example.is" ["sub"; "example"; "is"]
  = Ok ("is_", ["sub"; "example"; "is"])
  ∧ filterTldToSupportedPattern "example.xn--p1ai" ["example"; "xn--p1ai"]
    = Ok ("ru_rf", ["example"; "xn--p1ai"]).
Proof.
  split.
  - apply (classifier_reserved_and_punycode_suffixes "sub.example.is"
             ["sub"; "example"; "is"] ".is" "is_"); [|reflexivity].
    right. right. right. left. reflexivity.
  - apply (classifier_reserved_and_punycode_suffixes "example.xn--p1ai"
             ["example"; "xn--p1ai"] ".xn--p1ai" "ru_rf"); [|reflexivity].
    apply in_or_app. right. left. reflexivity.
Defined.

(** X4.  The compound table is read only for more than two labels.  A
    text that ends with one of its keys but comes with one or two labels
    classifies to the last label: no other table and not the [.name] rule
    can match it. *)
Theorem classifier_skips_compound_table_for_two_labels (domain : string)
    (d : list string) (i v tld : string) :
  length d ≤ 2 →
  last d = Some tld →
  In (i, v) Map2Underscore →
  Py.endswith domain i = true →
  filterTldToSupportedPattern domain d = Ok (tld, d).
Proof.
  intros L Hl Hi E. unfold filterTldToSupportedPattern.
  assert ((2 <? length d) = false) as -> by (apply Nat.ltb_ge; exact L).
  rewrite (apart_first_suffix Map2Underscore PythonKeyWordMap domain i v)
    by (auto; vm_compute; reflexivity).
  rewrite (apart_first_suffix Map2Underscore Utf8Map domain i v)
    by (auto; vm_compute; reflexivity).
  assert (first_suffix domain [(".name", "")] = None) as N
    by (apply (apart_first_suffix Map2Underscore _ domain i v);
        auto; vm_compute; reflexivity).
  cbn [first_suffix] in N.
  destruct (Py.endswith domain ".name"); [discriminate N|].
  unfold Py.getlast. rewrite Hl. reflexivity.
Qed.

Lemma classifier_skips_compound_table_for_two_labels_witness :
  filterTldToSupportedPattern "www.co.il" ["co"; "il"] = Ok ("il", ["co"; "il"]).
Proof.
  apply (classifier_skips_compound_table_for_two_labels "www.co.il"
           ["co"; "il"] ".co.il" "co_il" "il").
  - simpl. lia.
  - reflexivity.
  - right. left. reflexivity.
  - reflexivity.
Defined.

(** X5.  A text that ends with [.name] matches no key of the three
    tables.  With a non-empty label list the classifier prefixes the
    first label with [domain=] and answers with the last label of the
    list so changed; with an empty list it raises [IndexError]. *)
Theorem classifier_name_rule (domain : string) :
  Py.endswith domain ".name" = true →
  filterTldToSupportedPattern domain [] = Raise IndexError
  ∧ ∀ d0 rest,
      ∃ tld,
        last (("domain=" +:+ d0) :: rest) = Some tld
        ∧ filterTldToSupportedPattern domain (d0 :: rest)
          = Ok (tld, ("domain=" +:+ d0) :: rest).
Proof.
  intros E.
  assert (∀ d, filterTldToSupportedPattern domain d
               = rbind (Py.getitem d 0) (λ d0,
                 rbind (Py.setitem d 0 ("domain=" +:+ d0)) (λ d,
                 rbind (Py.getlast d) (λ tld, Ok (tld, d))))) as Hd.
  { intros d. unfold filterTldToSupportedPattern.
    rewrite (apart_first_suffix [(".name", "")] Map2Underscore domain
               ".name" "") by first [assumption | left; reflexivity | vm_compute; reflexivity].
    rewrite (apart_first_suffix [(".name", "")] PythonKeyWordMap domain
               ".name" "") by first [assumption | left; reflexivity | vm_compute; reflexivity].
    rewrite (apart_first_suffix [(".name", "")] Utf8Map domain
               ".name" "") by first [assumption | left; reflexivity | vm_compute; reflexivity].
    rewrite E. destruct (2 <? length d); reflexivity. }
  split; [rewrite Hd; reflexivity|].
  intros d0 rest. rewrite Hd.
  cbn [Py.getitem lookup list_lookup rbind]. unfold Py.setitem.
  destruct (decide (0 < length (d0 :: rest))) as [_|N]; [|cbn in N; lia].
  cbn [rbind insert list_insert]. unfold Py.getlast.
  destruct (last_is_Some (("domain=" +:+ d0) :: rest)) as [_ Hl].
  destruct Hl as [x Hx]; [discriminate|]. rewrite Hx. cbn. eauto.
Qed.

Lemma classifier_name_rule_witness :
  filterTldToSupportedPattern "john.smith.name" [] = Raise IndexError
  ∧ ∀ d0 rest,
      ∃ tld,
        last (("domain=" +:+ d0) :: rest) = Some tld
        ∧ filterTldToSupportedPattern "john.smith.name" (d0 :: rest)
          = Ok (tld, ("domain=" +:+ d0) :: rest).
Proof. apply (classifier_name_rule "john.smith.name"). reflexivity. Defined.

(** ** The depth of the table identifiers *)

Section Depth.

(** Every identifier of the three tables splits on [_] into two labels;
    for [is_] and the like the second one is empty. *)
Lemma table_depth i v :
  In (i, v) all_tables → length (Py.split "_" v) = 2.
Proof.
  intros Hi.
  assert (forallb (λ e, length (Py.split "_" e.2) =? 2) all_tables = true) as HA
    by (vm_compute; reflexivity).
  rewrite forallb_forall in HA. apply Nat.eqb_eq. exact (HA _ Hi).
Qed.

End Depth.

(** X6.  For a domain of more than two labels that ends with a key of
    the compound table, every lookup of [query] gets at least three
    labels: the compound suffix is never looked up on its own, and there
    are at most [n - 2] lookups for [n] labels. *)
Theorem compound_suffix_never_looked_up_alone `{Collaborators}
    (force : bool) (cache_file : option string) (slow_down : Z)
    (ignore_returncode : bool) (server : option string)
    (verbose with_cleanup_results : bool) (internationalized : PyVal)
    (st : St) (domain dom : string) (d : list string) (i v : string) :
  normalize domain = Ok (dom, d) →
  2 < length d →
  In (i, v) Map2Underscore →
  Py.endswith dom i = true →
  ∃ r st' new,
    query (PyStr domain) force cache_file slow_down ignore_returncode server
      verbose with_cleanup_results internationalized st = (r, st')
    ∧ calls st' = calls st ++ new
    ∧ length new ≤ length d - 2
    ∧ ∀ c, c ∈ new → 3 ≤ length (Call.dl c).
Proof.
  intros EN L Hi E.
  pose proof (compound_hit dom d i v L Hi E) as EF.
  assert (length (Py.split "_" v) = 2) as K
    by (apply (table_depth i); apply in_or_app; auto).
  destruct (query_trace force cache_file slow_down ignore_returncode server
              verbose with_cleanup_results internationalized domain st)
    as (r & st' & EQ & [-> | (dom' & d' & tld' & d1' & thisTld & d2 & m
                               & EN' & EF' & ET & L2 & Hm & EC)]).
  - exists r, st, []. rewrite app_nil_r.
    split; [exact EQ|]. split; [reflexivity|]. split; [simpl; lia|].
    intros c Hc. apply elem_of_nil in Hc. contradiction.
  - rewrite EN in EN'. injection EN' as <- <-.
    rewrite EF in EF'. injection EF' as <- <-.
    rewrite K in Hm.
    exists r, st'. eexists.
    split; [exact EQ|]. split; [exact EC|].
    split; [rewrite attempts_length; lia|].
    intros c (j & Lj & ->)%attempts_elem_of. cbn [Call.retry Call.dl].
    rewrite length_drop. lia.
Qed.

Lemma compound_suffix_never_looked_up_alone_witness :
  ∃ r st' new,
    Stub.run "www.sub.example.co.il" = (r, st')
    ∧ @calls Stub.env st' = [] ++ new
    ∧ length new ≤ 4 - 2
    ∧ ∀ c, c ∈ new → 3 ≤ length (Call.dl c).
Proof.
  apply (@compound_suffix_never_looked_up_alone Stub.env false None 0%Z
           false None false false (PyBool false) Stub.st0
           "www.sub.example.co.il" "www.sub.example.co.il"
           ["sub"; "example"; "co"; "il"] ".co.il" "co_il").
  - reflexivity.
  - simpl. lia.
  - right. left. reflexivity.
  - reflexivity.
Defined.

(** X7.  The identifiers of the reserved-word and punycode tables count
    as two levels ([is_] splits into [is] and the empty string).  A
    domain of at most three labels under such a suffix is therefore
    looked up once at most: [sub.example.is] is never retried as
    [example.is]. *)
Theorem reserved_suffix_three_labels_single_lookup `{Collaborators}
    (force : bool) (cache_file : option string) (slow_down : Z)
    (ignore_returncode : bool) (server : option string)
    (verbose with_cleanup_results : bool) (internationalized : PyVal)
    (st : St) (domain dom : string) (d : list string) (i v : string) :
  normalize domain = Ok (dom, d) →
  length d ≤ 3 →
  In (i, v) (PythonKeyWordMap ++ Utf8Map) →
  Py.endswith dom i = true →
  ∃ r st' new,
    query (PyStr domain) force cache_file slow_down ignore_returncode server
      verbose with_cleanup_results internationalized st = (r, st')
    ∧ calls st' = calls st ++ new
    ∧ length new ≤ 1
    ∧ ∀ c, c ∈ new → length (Call.dl c) = length d.
Proof.
  intros EN L Hi E.
  pose proof (reserved_hit dom d i v Hi E) as EF.
  assert (length (Py.split "_" v) = 2) as K
    by (apply (table_depth i); apply in_or_app; auto).
  destruct (query_trace force cache_file slow_down ignore_returncode server
              verbose with_cleanup_results internationalized domain st)
    as (r & st' & EQ & [-> | (dom' & d' & tld' & d1' & thisTld & d2 & m
                               & EN' & EF' & ET & L2 & Hm & EC)]).
  - exists r, st, []. rewrite app_nil_r.
    split; [exact EQ|]. split; [reflexivity|]. split; [simpl; lia|].
    intros c Hc. apply elem_of_nil in Hc. contradiction.
  - rewrite EN in EN'. injection EN' as <- <-.
    rewrite EF in EF'. injection EF' as <- <-.
    rewrite K in Hm. assert (m = 0) as -> by lia.
    exists r, st'. eexists.
    split; [exact EQ|]. split; [exact EC|].
    split; [rewrite attempts_length; lia|].
    intros c (j & Lj & ->)%attempts_elem_of. cbn [Call.retry Call.dl].
    rewrite length_drop. lia.
Qed.

Lemma reserved_suffix_three_labels_single_lookup_witness :
  ∃ r st' new,
    Stub.run "sub.example.is" = (r, st')
    ∧ @calls Stub.env st' = [] ++ new
    ∧ length new ≤ 1
    ∧ ∀ c, c ∈ new → length (Call.dl c) = 3.
Proof.
  apply (@reserved_suffix_three_labels_single_lookup Stub.env false None 0%Z
           false None false false (PyBool false) Stub.st0
           "sub.example.is" "sub.example.is"
           ["sub"; "example"; "is"] ".is" "is_").
  - reflexivity.
  - simpl. lia.
  - right. right. right. left. reflexivity.
  - reflexivity.
Defined.

(** ** How the loop ends *)

Section LoopEnds.
Context `{Collaborators}.

Variables (force : bool) (cache_file : option string) (slow_down : Z)
          (ignore_returncode : bool) (server : option string)
          (verbose with_cleanup_results : bool).

(** The loop returns [None] only after the last candidate: it has then
    made every retry its bound allows. *)
Lemma query_while_None tld tldLevel d st st' :
  query_while tld tldLevel force cache_file slow_down ignore_returncode
    server verbose with_cleanup_results d st = (Ok None, st') →
  calls st'
  = calls st
    ++ Call.attempts
         (Call.mk d force cache_file slow_down ignore_returncode server verbose)
         (length d - (length tldLevel + 1)).
Proof.
  revert st. induction d as [|x d IH]; intros st;
    rewrite query_while_unfold;
    destruct (do_query _ _) as [[q|name] w1]; cbn [calls world];
    try discriminate;
    destruct (do_parse _ _ _ _ _ _) as [[pd|name] w2]; cbn [calls world];
    try discriminate;
    destruct (has_domain_name pd) as [[|]|e] eqn:E; try discriminate.
  - destruct pd as [pd|]; [|discriminate E].
    destruct (Domain _ _ _) as [[r|name] w3]; discriminate.
  - intros [= <-]. reflexivity.
  - destruct pd as [pd|]; [|discriminate E].
    destruct (Domain _ _ _) as [[r|name] w3]; discriminate.
  - destruct (length tldLevel + 1 <? length (x :: d)) eqn:L.
    + apply Nat.ltb_lt in L. cbn [length] in L. intros Hq.
      rewrite (IH _ Hq). cbn [calls length].
      replace (S (length d) - (length tldLevel + 1))
        with (S (length d - (length tldLevel + 1))) by lia.
      rewrite attempts_cons, <- app_assoc. reflexivity.
    + apply Nat.ltb_ge in L. cbn [length] in L. intros [= <-].
      cbn [calls length].
      replace (S (length d) - (length tldLevel + 1)) with 0 by lia.
      reflexivity.
Qed.

End LoopEnds.

(** X8.  When [query] returns [None] for a domain that is not a single
    label, it has tried every candidate: it made exactly
    [1 + (n - (k + 1))] lookups, lookup [i] with [n - i] labels. *)
Theorem query_returns_None_after_all_candidates `{Collaborators}
    (force : bool) (cache_file : option string) (slow_down : Z)
    (ignore_returncode : bool) (server : option string)
    (verbose with_cleanup_results : bool) (internationalized : PyVal)
    (st st' : St) (domain dom : string) (d d1 : list string) (tld : string) :
  normalize domain = Ok (dom, d) →
  length d ≠ 1 →
  filterTldToSupportedPattern dom d = Ok (tld, d1) →
  query (PyStr domain) force cache_file slow_down ignore_returncode server
    verbose with_cleanup_results internationalized st = (Ok None, st') →
  ∃ new,
    calls st' = calls st ++ new
    ∧ length new = 1 + (length d - (length (Py.split "_" tld) + 1))
    ∧ ∀ i c, new !! i = Some c → length (Call.dl c) = length d - i.
Proof.
  intros EN L EF. rewrite query_str_unfold, EN.
  apply Nat.eqb_neq in L. rewrite L, EF.
  destruct (TLD_RE !! tld) as [thisTld|]; [|discriminate].
  destruct (private_registry thisTld); [discriminate|].
  pose proof (filterTld_length _ _ _ _ EF) as L1.
  destruct (if truthy internationalized && isinstance_bool internationalized
            then _ else _) as [d2|e] eqn:EP; [|discriminate].
  assert (length d2 = length d) as L2.
  { destruct (truthy internationalized && isinstance_bool internationalized).
    - rewrite (punycode_length _ _ _ EP). exact L1.
    - injection EP as <-. exact L1. }
  intros Hq. apply query_while_None in Hq. rewrite L2 in Hq.
  eexists. split; [exact Hq|]. split; [rewrite attempts_length; reflexivity|].
  intros j c [_ ->]%attempts_lookup. cbn [Call.retry Call.dl].
  rewrite length_drop, L2. reflexivity.
Qed.

Lemma query_returns_None_after_all_candidates_witness :
  ∃ new,
    @calls Stub.env (Stub.run "sub.example.co.uk").2 = [] ++ new
    ∧ length new = 1 + (4 - (1 + 1))
    ∧ ∀ i c, new !! i = Some c → length (Call.dl c) = 4 - i.
Proof.
  apply (@query_returns_None_after_all_candidates Stub.env false None 0%Z
           false None false false (PyBool false) Stub.st0
           (Stub.run "sub.example.co.uk").2
           "sub.example.co.uk" "sub.example.co.uk"
           ["sub"; "example"; "co"; "uk"] ["sub"; "example"; "co"; "uk"] "uk").
  - reflexivity.
  - simpl. lia.
  - reflexivity.
  - vm_compute. reflexivity.
Defined.

(** X9.  A failure of the executor is not taken for "nothing found":
    when the first lookup fails, [query] raises what the executor raised
    and stops; the shorter candidates are not tried. *)
Theorem executor_failure_ends_query `{Collaborators}
    (force : bool) (cache_file : option string) (slow_down : Z)
    (ignore_returncode : bool) (server : option string)
    (verbose with_cleanup_results : bool)
    (st : St) (domain dom : string) (d d1 : list string) (tld : string)
    (thisTld : TldMeta) (name : string) (w : World) :
  normalize domain = Ok (dom, d) →
  length d ≠ 1 →
  filterTldToSupportedPattern dom d = Ok (tld, d1) →
  TLD_RE !! tld = Some thisTld →
  private_registry thisTld = false →
  let first :=
    Call.mk d1 force (opt_str_or cache_file CACHE_FILE)
      (effective_slow_down
         (if (slow_down =? 0)%Z then SLOW_DOWN else slow_down) thisTld)
      ignore_returncode (effective_server server thisTld) verbose in
  do_query first (world st) = (Fails name, w) →
  query (PyStr domain) force cache_file slow_down ignore_returncode server
    verbose with_cleanup_results (PyBool false) st
  = (Raise (Raised name), mkSt w (calls st ++ [first])).
Proof.
  intros EN L EF ET EP first EQ. rewrite query_str_unfold, EN.
  apply Nat.eqb_neq in L. rewrite L, EF, ET, EP. cbn [truthy andb].
  rewrite query_while_unfold. fold first. rewrite EQ. reflexivity.
Qed.

Lemma executor_failure_ends_query_witness :
  @query Offline.env (PyStr "sub.example.co.il") false None 0%Z false None
    false false (PyBool false) Offline.st0
  = (Raise (Raised "WhoisCommandFailed"),
     @mkSt Offline.env 1
       [Call.mk ["sub"; "example"; "co"; "il"] false None 0%Z false None false]).
Proof.
  apply (@executor_failure_ends_query Offline.env false None 0%Z false None
           false false Offline.st0 "sub.example.co.il" "sub.example.co.il"
           ["sub"; "example"; "co"; "il"] ["sub"; "example"; "co"; "il"]
           "co_il" Stub.plain "WhoisCommandFailed" 1).
  - reflexivity.
  - simpl. lia.
  - reflexivity.
  - vm_compute. reflexivity.
  - reflexivity.
  - reflexivity.
Defined.

(** X10.  Every lookup of a query carries the caller's [force],
    [ignore_returncode] and [verbose] unchanged, and the caller's
    [cache_file] unless that is absent or empty, when it carries the
    module default, [None]. *)
Theorem lookup_arguments_pass_through `{Collaborators}
    (force : bool) (cache_file : option string) (slow_down : Z)
    (ignore_returncode : bool) (server : option string)
    (verbose with_cleanup_results : bool) (internationalized : PyVal)
    (st : St) (domain : string) :
  ∃ r st' new,
    query (PyStr domain) force cache_file slow_down ignore_returncode server
      verbose with_cleanup_results internationalized st = (r, st')
    ∧ calls st' = calls st ++ new
    ∧ ∀ c, c ∈ new →
        Call.force c = force
        ∧ Call.ignore_returncode c = ignore_returncode
        ∧ Call.verbose c = verbose
        ∧ Call.cache_file c
          = match cache_file with
            | Some EmptyString | None => None
            | Some f => Some f
            end.
Proof.
  destruct (query_trace force cache_file slow_down ignore_returncode server
              verbose with_cleanup_results internationalized domain st)
    as (r & st' & EQ & [-> | (dom' & d' & tld' & d1' & thisTld & d2 & m
                               & EN' & EF' & ET & L2 & Hm & EC)]).
  - exists r, st, []. rewrite app_nil_r.
    split; [exact EQ|]. split; [reflexivity|].
    intros c Hc. apply elem_of_nil in Hc. contradiction.
  - exists r, st'. eexists.
    split; [exact EQ|]. split; [exact EC|].
    intros c (j & Lj & ->)%attempts_elem_of.
    cbn [Call.retry Call.force Call.ignore_returncode Call.verbose
         Call.cache_file].
    repeat split. destruct cache_file as [[|a f]|]; reflexivity.
Qed.

(** X11.  The conversion to punycode runs only for the object [True].
    Any other value of [internationalized], also a true one such as [1]
    or a non-empty string, gives the run that [False] gives. *)
Theorem internationalized_must_be_True `{Collaborators}
    (force : bool) (cache_file : option string) (slow_down : Z)
    (ignore_returncode : bool) (server : option string)
    (verbose with_cleanup_results : bool) (internationalized : PyVal)
    (st : St) (domain : PyVal) :
  internationalized ≠ PyBool true →
  query domain force cache_file slow_down ignore_returncode server verbose
    with_cleanup_results internationalized st
  = query domain force cache_file slow_down ignore_returncode server verbose
      with_cleanup_results (PyBool false) st.
Proof.
  intros Hv.
  assert (truthy internationalized && isinstance_bool internationalized = false)
    as E.
  { destruct internationalized as [| [|] | | | |]; try reflexivity;
      try apply andb_false_r. contradiction. }
  destruct domain; try reflexivity.
  rewrite !query_str_unfold, E. reflexivity.
Qed.

Lemma internationalized_must_be_True_witness :
  @query Stub.env (PyStr "example.com") false None 0%Z false None false false
    (PyInt 1) Stub.st0
  = Stub.run "example.com".
Proof.
  apply (@internationalized_must_be_True Stub.env false None 0%Z false None
           false false (PyInt 1) Stub.st0 (PyStr "example.com")).
  discriminate.
Defined.

(** ** The converter on ASCII labels *)

Section AsciiLabels.
Variable f : string → option string.

Lemma idna_encode_ascii k :
  all_ascii k = true → Py.contains "." k = false → String.length k < 64 →
  idna_encode f k = Ok k.
Proof.
  intros HA HD HL. unfold idna_encode. destruct k as [|c k]; [reflexivity|].
  rewrite HA, (split_dot_free _ HD). cbn [idna_labels_ok].
  apply Nat.ltb_lt in HL. rewrite HL. reflexivity.
Qed.

Lemma punycode_ascii d :
  Forall (λ k, all_ascii k = true ∧ Py.contains "." k = false
               ∧ String.length k < 64) d →
  internationalizedDomainNameToPunyCode f d = Ok d.
Proof.
  induction 1 as [|k d (HA & HD & HL) _ IH]; [reflexivity|].
  cbn [internationalizedDomainNameToPunyCode].
  rewrite (idna_encode_ascii k HA HD HL), IH. cbn [rbind].
  destruct k; reflexivity.
Qed.

End AsciiLabels.

(** X12.  For a name whose labels, as the classifier leaves them, are
    ASCII, free of dots and shorter than 64 characters, the conversion
    changes nothing: [query] with [internationalized=True] is the run it
    makes with [internationalized=False]. *)
Theorem internationalized_changes_nothing_for_ascii `{Collaborators}
    (force : bool) (cache_file : option string) (slow_down : Z)
    (ignore_returncode : bool) (server : option string)
    (verbose with_cleanup_results : bool)
    (st : St) (domain dom : string) (d d1 : list string) (tld : string) :
  normalize domain = Ok (dom, d) →
  filterTldToSupportedPattern dom d = Ok (tld, d1) →
  Forall (λ k, all_ascii k = true ∧ Py.contains "." k = false
               ∧ String.length k < 64) d1 →
  internationalizedDomainNameToPunyCode to_ascii d1 = Ok d1
  ∧ query (PyStr domain) force cache_file slow_down ignore_returncode server
      verbose with_cleanup_results (PyBool true) st
    = query (PyStr domain) force cache_file slow_down ignore_returncode server
        verbose with_cleanup_results (PyBool false) st.
Proof.
  intros EN EF HA. pose proof (punycode_ascii to_ascii d1 HA) as EP.
  split; [exact EP|].
  rewrite !query_str_unfold, EN, EF. cbn [truthy isinstance_bool andb].
  rewrite EP. reflexivity.
Qed.

Lemma internationalized_changes_nothing_for_ascii_witness :
  internationalizedDomainNameToPunyCode (@to_ascii Stub.env)
    ["sub"; "example"; "co"; "il"]
  = Ok ["sub"; "example"; "co"; "il"]
  ∧ @query Stub.env (PyStr "Sub.Example.co.il.") false None 0%Z false None
      false false (PyBool true) Stub.st0
    = @query Stub.env (PyStr "Sub.Example.co.il.") false None 0%Z false None
        false false (PyBool false) Stub.st0.
Proof.
  apply (@internationalized_changes_nothing_for_ascii Stub.env false None 0%Z
           false None false false Stub.st0 "Sub.Example.co.il."
           "sub.example.co.il" ["sub"; "example"; "co"; "il"]
           ["sub"; "example"; "co"; "il"] "co_il").
  - reflexivity.
  - reflexivity.
  - repeat constructor; simpl; lia.
Defined.

(** ** What the normalizer does not see *)

Section Characters.

Lemma lower_char_idem c : Py.lower_char (Py.lower_char c) = Py.lower_char c.
Proof. destruct c as [[] [] [] [] [] [] [] []]; vm_compute; reflexivity. Qed.

Lemma isspace_lower_char c : Py.isspace (Py.lower_char c) = Py.isspace c.
Proof. destruct c as [[] [] [] [] [] [] [] []]; vm_compute; reflexivity. Qed.

Lemma isdot_lower_char c : Ascii.eqb (Py.lower_char c) "." = Ascii.eqb c ".".
Proof. destruct c as [[] [] [] [] [] [] [] []]; vm_compute; reflexivity. Qed.

Lemma lower_idem s : Py.lower (Py.lower s) = Py.lower s.
Proof.
  induction s as [|c s IH]; [reflexivity|]. cbn [Py.lower].
  rewrite lower_char_idem, IH. reflexivity.
Qed.

Lemma lower_app a b : Py.lower (a +:+ b) = Py.lower a +:+ Py.lower b.
Proof.
  induction a as [|c a IH]; [reflexivity|].
  cbn [String.append Py.lower]. exact (f_equal (String _) IH).
Qed.

Lemma lower_repeat_dot n :
  Py.lower (Py.repeat_char "." n) = Py.repeat_char "." n.
Proof.
  induction n as [|n IH]; [reflexivity|]. cbn [Py.repeat_char Py.lower].
  rewrite IH. reflexivity.
Qed.

Lemma all_chars_lower s :
  all_chars Py.isspace s = true → all_chars Py.isspace (Py.lower s) = true.
Proof.
  induction s as [|c s IH]; [reflexivity|]. cbn [all_chars Py.lower].
  rewrite isspace_lower_char. intros [-> Hs]%andb_true_iff. exact (IH Hs).
Qed.

End Characters.

Section Strips.
Variable p : ascii → bool.

Lemma lstrip_by_lower s :
  (∀ c, p (Py.lower_char c) = p c) →
  Py.lstrip_by p (Py.lower s) = Py.lower (Py.lstrip_by p s).
Proof.
  intros Hp. induction s as [|c s IH]; [reflexivity|].
  cbn [Py.lower Py.lstrip_by]. rewrite Hp. destruct (p c); [exact IH|reflexivity].
Qed.

Lemma rstrip_by_lower s :
  (∀ c, p (Py.lower_char c) = p c) →
  Py.rstrip_by p (Py.lower s) = Py.lower (Py.rstrip_by p s).
Proof.
  intros Hp. induction s as [|c s IH]; [reflexivity|].
  cbn [Py.lower Py.rstrip_by]. rewrite IH, Hp.
  destruct (Py.rstrip_by p s); [destruct (p c)|]; reflexivity.
Qed.

Lemma lstrip_by_all w : all_chars p w = true → Py.lstrip_by p w = EmptyString.
Proof.
  induction w as [|c w IH]; [reflexivity|]. cbn [all_chars Py.lstrip_by].
  intros [-> Hw]%andb_true_iff. exact (IH Hw).
Qed.

Lemma rstrip_by_all w : all_chars p w = true → Py.rstrip_by p w = EmptyString.
Proof.
  induction w as [|c w IH]; [reflexivity|]. cbn [all_chars Py.rstrip_by].
  intros [-> Hw]%andb_true_iff. rewrite (IH Hw). reflexivity.
Qed.

Lemma lstrip_by_app_all w x :
  all_chars p w = true → Py.lstrip_by p (w +:+ x) = Py.lstrip_by p x.
Proof.
  induction w as [|c w IH]; [reflexivity|].
  cbn [all_chars String.append Py.lstrip_by].
  intros [Hc Hw]%andb_true_iff.
  change (Py.lstrip_by p (String c (w +:+ x)) = Py.lstrip_by p x).
  cbn [Py.lstrip_by]. rewrite Hc. exact (IH Hw).
Qed.

Lemma rstrip_by_app_all x w :
  all_chars p w = true → Py.rstrip_by p (x +:+ w) = Py.rstrip_by p x.
Proof.
  intros Hw. induction x as [|c x IH]; [exact (rstrip_by_all w Hw)|].
  change (Py.rstrip_by p (String c (x +:+ w)) = Py.rstrip_by p (String c x)).
  cbn [Py.rstrip_by]. rewrite IH. reflexivity.
Qed.

(** Removing leading characters from [x +:+ w], where [w] is all of
    the set, leaves what it leaves of [x], followed by characters of the
    set. *)
Lemma lstrip_by_app_tail x w :
  all_chars p w = true →
  ∃ w', all_chars p w' = true
        ∧ Py.lstrip_by p (x +:+ w) = Py.lstrip_by p x +:+ w'.
Proof.
  intros Hw. induction x as [|c x (w' & Hw' & IH)].
  - exists EmptyString. split; [reflexivity|]. exact (lstrip_by_all w Hw).
  - change (∃ w', all_chars p w' = true
              ∧ Py.lstrip_by p (String c (x +:+ w))
                = Py.lstrip_by p (String c x) +:+ w').
    cbn [Py.lstrip_by]. destruct (p c); [eauto|].
    exists w. split; [exact Hw|reflexivity].
Qed.

Lemma lstrip_by_app_fixed a b :
  Py.lstrip_by p b = b → Py.lstrip_by p (a +:+ b) = Py.lstrip_by p a +:+ b.
Proof.
  intros Hb. induction a as [|c a IH]; [exact Hb|].
  change (Py.lstrip_by p (String c (a +:+ b))
          = Py.lstrip_by p (String c a) +:+ b).
  cbn [Py.lstrip_by]. destruct (p c); [exact IH|reflexivity].
Qed.

Lemma rstrip_by_cons_fixed c a :
  Py.rstrip_by p (String c a) = String c a →
  Py.rstrip_by p a = a ∧ (a = EmptyString → p c = false).
Proof.
  cbn [Py.rstrip_by]. destruct (Py.rstrip_by p a) as [|b r] eqn:E.
  - destruct (p c); [discriminate|]. intros [= <-]. auto.
  - intros [= <-]. split; [reflexivity|discriminate].
Qed.

Lemma rstrip_by_app_fixed a b :
  Py.rstrip_by p a = a → Py.rstrip_by p b = b →
  Py.rstrip_by p (a +:+ b) = a +:+ b.
Proof.
  intros Ha Hb. induction a as [|c a IH]; [exact Hb|].
  apply rstrip_by_cons_fixed in Ha as [Ha Hc]. specialize (IH Ha).
  change (Py.rstrip_by p (String c (a +:+ b)) = String c (a +:+ b)).
  cbn [Py.rstrip_by]. rewrite IH.
  destruct (a +:+ b) as [|x r] eqn:E; [|reflexivity].
  destruct a; [|discriminate]. rewrite Hc; reflexivity.
Qed.

(** Text without trailing characters of the set keeps that property
    when leading characters are removed. *)
Lemma rstrip_by_lstrip_fixed q x :
  Py.rstrip_by p x = x →
  Py.rstrip_by p (Py.lstrip_by q x) = Py.lstrip_by q x.
Proof.
  induction x as [|c x IH]; [reflexivity|]. intros Hx.
  cbn [Py.lstrip_by]. destruct (q c); [|exact Hx].
  apply rstrip_by_cons_fixed in Hx as [Hx _]. exact (IH Hx).
Qed.

Lemma rstrip_by_repeat_other c n :
  p c = false → Py.rstrip_by p (Py.repeat_char c n) = Py.repeat_char c n.
Proof.
  intros Hc. induction n as [|n IH]; [reflexivity|].
  cbn [Py.repeat_char Py.rstrip_by]. rewrite IH, Hc.
  destruct (Py.repeat_char c n); reflexivity.
Qed.

Lemma lstrip_by_repeat_other c n :
  p c = false → Py.lstrip_by p (Py.repeat_char c n) = Py.repeat_char c n.
Proof.
  intros Hc. destruct n; [reflexivity|].
  cbn [Py.repeat_char Py.lstrip_by]. rewrite Hc. reflexivity.
Qed.

End Strips.

Lemma all_chars_repeat c n :
  all_chars (λ a, Ascii.eqb a c) (Py.repeat_char c n) = true.
Proof.
  induction n as [|n IH]; [reflexivity|]. cbn [Py.repeat_char all_chars].
  rewrite Ascii.eqb_refl. exact IH.
Qed.

(** The text of lines 214: what [normalize] splits. *)
Lemma normalize_by_text a b :
  Py.rstrip_dot (Py.strip (Py.lower a)) = Py.rstrip_dot (Py.strip (Py.lower b)) →
  normalize a = normalize b.
Proof. intros E. unfold normalize. rewrite E. reflexivity. Qed.

(** X13.  [query] does not see the case of letters: two domains with
    the same lower-case form are normalized alike and give the same
    run. *)
Theorem query_ignores_case `{Collaborators}
    (force : bool) (cache_file : option string) (slow_down : Z)
    (ignore_returncode : bool) (server : option string)
    (verbose with_cleanup_results : bool) (internationalized : PyVal)
    (st : St) (a b : string) :
  Py.lower a = Py.lower b →
  normalize a = normalize b
  ∧ normalize (Py.lower a) = normalize a
  ∧ query (PyStr a) force cache_file slow_down ignore_returncode server
      verbose with_cleanup_results internationalized st
    = query (PyStr b) force cache_file slow_down ignore_returncode server
        verbose with_cleanup_results internationalized st.
Proof.
  intros E.
  assert (normalize a = normalize b) as EN
    by (apply normalize_by_text; rewrite E; reflexivity).
  split; [exact EN|]. split.
  - apply normalize_by_text. rewrite lower_idem. reflexivity.
  - rewrite !query_str_unfold, EN. reflexivity.
Qed.

Lemma query_ignores_case_witness :
  normalize "WWW.Google.COM" = normalize "www.gOOgle.com"
  ∧ normalize (Py.lower "WWW.Google.COM") = normalize "WWW.Google.COM"
  ∧ Stub.run "WWW.Google.COM" = Stub.run "www.gOOgle.com".
Proof.
  apply (@query_ignores_case Stub.env false None 0%Z false None false false
           (PyBool false) Stub.st0 "WWW.Google.COM" "www.gOOgle.com").
  reflexivity.
Defined.

(** X14.  White space around the domain is not seen: with any run of
    white space before and after it, the text is normalized as without,
    and the run of [query] is the same. *)
Theorem query_ignores_surrounding_whitespace `{Collaborators}
    (force : bool) (cache_file : option string) (slow_down : Z)
    (ignore_returncode : bool) (server : option string)
    (verbose with_cleanup_results : bool) (internationalized : PyVal)
    (st : St) (before domain after : string) :
  all_chars Py.isspace before = true →
  all_chars Py.isspace after = true →
  normalize (before +:+ domain +:+ after) = normalize domain
  ∧ query (PyStr (before +:+ domain +:+ after)) force cache_file slow_down
      ignore_returncode server verbose with_cleanup_results
      internationalized st
    = query (PyStr domain) force cache_file slow_down ignore_returncode
        server verbose with_cleanup_results internationalized st.
Proof.
  intros Hb Ha.
  assert (normalize (before +:+ domain +:+ after) = normalize domain) as EN.
  { apply normalize_by_text. f_equal. unfold Py.strip.
    rewrite !lower_app.
    rewrite (lstrip_by_app_all Py.isspace _ _ (all_chars_lower _ Hb)).
    destruct (lstrip_by_app_tail Py.isspace (Py.lower domain) (Py.lower after)
                (all_chars_lower _ Ha)) as (w' & Hw' & ->).
    apply rstrip_by_app_all. exact Hw'. }
  split; [exact EN|]. rewrite !query_str_unfold, EN. reflexivity.
Qed.

Lemma query_ignores_surrounding_whitespace_witness :
  normalize ("  " +:+ "example.com" +:+ " ") = normalize "example.com"
  ∧ Stub.run ("  " +:+ "example.com" +:+ " ") = Stub.run "example.com".
Proof.
  apply (@query_ignores_surrounding_whitespace Stub.env false None 0%Z false
           None false false (PyBool false) Stub.st0 "  " "example.com" " ");
    reflexivity.
Defined.

(** X15.  The trailing dots of a fully qualified name are not seen: a
    domain that does not end with white space is normalized, and
    queried, as the same domain followed by any number of dots. *)
Theorem query_ignores_trailing_dots `{Collaborators}
    (force : bool) (cache_file : option string) (slow_down : Z)
    (ignore_returncode : bool) (server : option string)
    (verbose with_cleanup_results : bool) (internationalized : PyVal)
    (st : St) (domain : string) (n : nat) :
  Py.rstrip_by Py.isspace domain = domain →
  normalize (domain +:+ Py.repeat_char "." n) = normalize domain
  ∧ query (PyStr (domain +:+ Py.repeat_char "." n)) force cache_file
      slow_down ignore_returncode server verbose with_cleanup_results
      internationalized st
    = query (PyStr domain) force cache_file slow_down ignore_returncode
        server verbose with_cleanup_results internationalized st.
Proof.
  intros Hd.
  assert (normalize (domain +:+ Py.repeat_char "." n) = normalize domain) as EN.
  { apply normalize_by_text. unfold Py.strip.
    rewrite lower_app, lower_repeat_dot.
    assert (Py.rstrip_by Py.isspace (Py.lower domain) = Py.lower domain) as Hx.
    { rewrite (rstrip_by_lower _ _ isspace_lower_char), Hd. reflexivity. }
    rewrite (lstrip_by_app_fixed Py.isspace)
      by (apply lstrip_by_repeat_other; reflexivity).
    pose proof (rstrip_by_lstrip_fixed Py.isspace Py.isspace _ Hx) as Hy.
    rewrite (rstrip_by_app_fixed Py.isspace _ _ Hy)
      by (apply rstrip_by_repeat_other; reflexivity).
    rewrite Hy. unfold Py.rstrip_dot.
    apply rstrip_by_app_all, all_chars_repeat. }
  split; [exact EN|]. rewrite !query_str_unfold, EN. reflexivity.
Qed.

Lemma query_ignores_trailing_dots_witness :
  normalize ("example.com" +:+ Py.repeat_char "." 1) = normalize "example.com"
  ∧ Stub.run ("example.com" +:+ Py.repeat_char "." 1) = Stub.run "example.com".
Proof.
  apply (@query_ignores_trailing_dots Stub.env false None 0%Z false None
           false false (PyBool false) Stub.st0 "example.com" 1).
  reflexivity.
Defined.

Section Labels.

Lemma split_labels_dot_free s :
  Forall (λ l, Py.contains "." l = false) (Py.split "." s).
Proof.
  induction s as [|c s IH]; cbn [Py.split]; [repeat constructor|].
  destruct (Ascii.eqb c ".") eqn:Ec; [constructor; [reflexivity|exact IH]|].
  destruct (Py.split "." s) as [|h t]; [repeat constructor; cbn; rewrite Ec; reflexivity|].
  inversion IH as [|? ? Hh Ht]; subst. constructor; [|exact Ht].
  cbn [Py.contains]. rewrite Ec, Hh. reflexivity.
Qed.

Lemma split_lower s :
  Py.split "." (Py.lower s) = Py.lower <$> Py.split "." s.
Proof.
  induction s as [|c s IH]; [reflexivity|]. cbn [Py.lower Py.split].
  rewrite isdot_lower_char, IH.
  destruct (Ascii.eqb c "."); [reflexivity|].
  destruct (Py.split "." s); reflexivity.
Qed.

Lemma fmap_fixed {A} (f : A → A) (l : list A) :
  f <$> l = l → Forall (λ x, f x = x) l.
Proof.
  induction l as [|x l IH]; [constructor|]. cbn.
  intros [= Hx Hl]. constructor; auto.
Qed.

Lemma normalized_text_lower s :
  Py.lower (Py.rstrip_dot (Py.strip (Py.lower s)))
  = Py.rstrip_dot (Py.strip (Py.lower s)).
Proof.
  unfold Py.rstrip_dot, Py.strip.
  rewrite <- (rstrip_by_lower _ _ isdot_lower_char),
          <- (rstrip_by_lower _ _ isspace_lower_char),
          <- (lstrip_by_lower _ _ isspace_lower_char), lower_idem.
  reflexivity.
Qed.

End Labels.

(** X16.  What the normalizer hands on is in lower case and cut at
    every dot: the text is its own lower-case form, and every label is
    its own lower-case form and contains no dot. *)
Theorem normalized_labels_lower_case_and_dot_free (domain : string) :
  ∃ text d,
    normalize domain = Ok (text, d)
    ∧ Py.lower text = text
    ∧ Forall (λ l, Py.contains "." l = false ∧ Py.lower l = l) d.
Proof.
  destruct (normalize_total domain) as (d0 & rest & ES & EN).
  eexists _, _. split; [exact EN|]. split; [apply normalized_text_lower|].
  assert (Forall (λ l, Py.contains "." l = false ∧ Py.lower l = l)
            (d0 :: rest)) as HF.
  { rewrite <- ES. apply Forall_and. split; [apply split_labels_dot_free|].
    apply fmap_fixed. rewrite <- split_lower, normalized_text_lower.
    reflexivity. }
  destruct (String.eqb d0 "www"); [|exact HF].
  inversion HF; assumption.
Qed.

(** ** [validTlds] *)

Section StrOrder.

Lemma ascii_compare_Lt_trans x y z :
  Ascii.compare x y = Lt → Ascii.compare y z = Lt → Ascii.compare x z = Lt.
Proof.
  unfold Ascii.compare. rewrite !N.compare_lt_iff. lia.
Qed.

Lemma str_compare_le_trans a b c :
  String.compare a b ≠ Gt → String.compare b c ≠ Gt → String.compare a c ≠ Gt.
Proof.
  revert b c. induction a as [|x a IH]; intros [|y b] [|z c]; cbn;
    try congruence.
  destruct (Ascii.compare x y) eqn:Exy; [| |congruence].
  - apply Ascii.compare_eq_iff in Exy as ->.
    destruct (Ascii.compare y z); [apply IH|congruence|congruence].
  - destruct (Ascii.compare y z) eqn:Eyz; [| |congruence].
    + apply Ascii.compare_eq_iff in Eyz as <-. rewrite Exy. congruence.
    + rewrite (ascii_compare_Lt_trans x y z Exy Eyz). congruence.
Qed.

Lemma str_le_compare a b : str_le a b ↔ String.compare a b ≠ Gt.
Proof.
  unfold str_le, String.leb. destruct (String.compare a b); split; congruence.
Qed.

#[global] Instance str_le_total : Total str_le.
Proof. intros a b. apply String.leb_total. Qed.

#[global] Instance str_le_trans : Transitive str_le.
Proof.
  intros a b c. rewrite !str_le_compare. apply str_compare_le_trans.
Qed.

#[global] Instance str_le_antisymm : AntiSymm (=) str_le.
Proof. intros a b. apply String.leb_antisym. Qed.

End StrOrder.

(** X17.  [validTlds()] is in ascending order of [str], has one entry
    for each key of [TLD_RE], namely the translation of that key, and
    does not depend on the order in which the keys are visited. *)
Theorem validTlds_sorted_one_per_key `{Collaborators} :
  Sorted str_le validTlds
  ∧ length validTlds = size TLD_RE
  ∧ (∀ x, x ∈ validTlds ↔ ∃ tld meta, TLD_RE !! tld = Some meta ∧ x = back tld)
  ∧ (∀ keys, keys ≡ₚ (map_to_list TLD_RE).*1 →
             sorted (back <$> keys) = validTlds).
Proof.
  unfold validTlds, sorted. split; [apply Sorted_merge_sort; apply _|].
  split; [|split].
  - rewrite merge_sort_Permutation, !length_fmap. apply length_map_to_list.
  - intros x. rewrite merge_sort_Permutation, list_elem_of_fmap. split.
    + intros (tld & -> & [[tld' meta] [-> Hin]]%list_elem_of_fmap).
      apply elem_of_map_to_list in Hin. cbn. eauto.
    + intros (tld & meta & Hm & ->). exists tld. split; [reflexivity|].
      apply list_elem_of_fmap. exists (tld, meta). split; [reflexivity|].
      apply elem_of_map_to_list. exact Hm.
  - intros keys Hp. apply (Sorted_unique str_le).
    + apply Sorted_merge_sort; apply _.
    + apply Sorted_merge_sort; apply _.
    + rewrite !merge_sort_Permutation, Hp. reflexivity.
Qed.

Section ReverseMap.

Lemma rmap_add_None table m k :
  m !! k = None → (∀ i, ¬ In (i, k) table) → rmap_add table m !! k = None.
Proof.
  revert m. induction table as [|[i v] table IH]; intros m Hm Hk; [exact Hm|].
  cbn [rmap_add foldl]. apply IH.
  - cbn. rewrite lookup_insert_ne; [exact Hm|].
    intros ->. apply (Hk i). left. reflexivity.
  - intros j Hj. apply (Hk j). right. exact Hj.
Qed.

(** The reverse dict has no key besides the identifiers of the tables. *)
Lemma rmap_None k : (∀ i, ¬ In (i, k) all_tables) → rmap !! k = None.
Proof.
  intros Hk. unfold rmap.
  apply rmap_add_None;
    [apply rmap_add_None; [apply rmap_add_None; [apply lookup_empty|]|]|];
    intros i Hi; apply (Hk i); unfold all_tables; rewrite !in_app_iff; tauto.
Qed.

(** No two keys of the tables share an identifier, so no assignment to
    [rmap] overwrites another: each identifier leads back to its key
    without the leading dot. *)
Lemma rmap_inverse i v : In (i, v) all_tables → rmap !! v = Some (lstrip_dot i).
Proof.
  intros Hi.
  assert (forallb (λ e, bool_decide (rmap !! e.2 = Some (lstrip_dot e.1)))
            all_tables = true) as HA by (vm_compute; reflexivity).
  rewrite forallb_forall in HA. specialize (HA _ Hi).
  apply bool_decide_eq_true in HA. exact HA.
Qed.

Lemma endswith_trans a b c :
  Py.endswith a b = true → Py.endswith b c = true → Py.endswith a c = true.
Proof.
  intros [p ->]%endswith_spec [q ->]%endswith_spec. apply endswith_spec.
  exists (p +:+ q). clear. induction p as [|x p IH]; [reflexivity|].
  exact (f_equal (String x) IH).
Qed.

(** A name built on the reported suffix ends with the key it came
    from. *)
Lemma reported_suffix_ends_key i v :
  In (i, v) all_tables → Py.endswith ("." +:+ lstrip_dot i) i = true.
Proof.
  intros Hi.
  assert (forallb (λ e, Py.endswith ("." +:+ lstrip_dot e.1) e.1) all_tables
          = true) as HA by (vm_compute; reflexivity).
  rewrite forallb_forall in HA. exact (HA _ Hi).
Qed.

End ReverseMap.

(** X18.  The translation of [validTlds] undoes the tables.  An
    identifier of a table is reported as its key without the leading
    dot, any other key of [TLD_RE] as itself; and a name of more than
    two labels that ends with a dot and the reported suffix of a table
    identifier classifies back to that identifier. *)
Theorem validTlds_translation_round_trip `{Collaborators}
    (tld : string) (meta : TldMeta) :
  TLD_RE !! tld = Some meta →
  (∀ i, In (i, tld) all_tables →
        back tld = lstrip_dot i
        ∧ lstrip_dot i ∈ validTlds
        ∧ ∀ domain d,
            2 < length d →
            Py.endswith domain ("." +:+ back tld) = true →
            filterTldToSupportedPattern domain d = Ok (tld, d))
  ∧ ((∀ i, ¬ In (i, tld) all_tables) → back tld = tld ∧ tld ∈ validTlds).
Proof.
  intros Hm.
  assert (back tld ∈ validTlds) as Hin.
  { unfold validTlds, sorted. rewrite merge_sort_Permutation.
    apply list_elem_of_fmap. exists tld. split; [reflexivity|].
    apply list_elem_of_fmap. exists (tld, meta). split; [reflexivity|].
    apply elem_of_map_to_list. exact Hm. }
  split.
  - intros i Hi.
    assert (back tld = lstrip_dot i) as Hb
      by (unfold back; rewrite (rmap_inverse i tld Hi); reflexivity).
    split; [exact Hb|]. split; [rewrite <- Hb; exact Hin|].
    intros domain d L E. rewrite Hb in E.
    pose proof (endswith_trans _ _ _ E (reported_suffix_ends_key i tld Hi)) as Ei.
    unfold all_tables in Hi. apply in_app_or in Hi as [Hi|Hi].
    + apply (compound_hit domain d i tld L Hi Ei).
    + apply (reserved_hit domain d i tld Hi Ei).
  - intros Hn.
    assert (back tld = tld) as Hb
      by (unfold back; rewrite (rmap_None tld Hn); reflexivity).
    split; [exact Hb|]. rewrite <- Hb at 1. exact Hin.
Qed.

Lemma validTlds_translation_round_trip_witness :
  (∀ i, In (i, "co_il") all_tables →
        back "co_il" = lstrip_dot i
        ∧ lstrip_dot i ∈ @validTlds Stub.env
        ∧ ∀ domain d,
            2 < length d →
            Py.endswith domain ("." +:+ back "co_il") = true →
            filterTldToSupportedPattern domain d = Ok ("co_il", d))
  ∧ ((∀ i, ¬ In (i, "co_il") all_tables) →
     back "co_il" = "co_il" ∧ "co_il" ∈ @validTlds Stub.env).
Proof.
  apply (@validTlds_translation_round_trip Stub.env "co_il" Stub.plain).
  vm_compute. reflexivity.
Defined.

(** ** [result2dict] and [get] *)

(** X19.  [get] is [query] with the result turned into a dict: it ends
    in the state [query] ends in, so it makes the same lookups; it raises
    exactly what [query] raises; and when [query] returns [None] it
    returns the empty dict. *)
Theorem get_is_query_as_dict `{Collaborators}
    (vars : DomainObj → gmap string PyVal) (instance_truthy : DomainObj → bool)
    (force : bool) (cache_file : option string) (slow_down : Z)
    (ignore_returncode : bool) (server : option string)
    (verbose with_cleanup_results : bool) (internationalized : PyVal)
    (st : St) (domain : PyVal) :
  let q := query domain force cache_file slow_down ignore_returncode server
             verbose with_cleanup_results internationalized st in
  let g := get vars instance_truthy domain force cache_file slow_down
             ignore_returncode server verbose with_cleanup_results
             internationalized st in
  g.2 = q.2
  ∧ (∀ e, g.1 = Raise e ↔ q.1 = Raise e)
  ∧ (q.1 = Ok None → g.1 = Ok ∅)
  ∧ (∀ o, q.1 = Ok (Some o) → instance_truthy o = true → g.1 = Ok (vars o)).
Proof.
  intros q g. subst g. unfold get, result2dict, bind, ret. fold q.
  destruct q as [[r|e] st']; cbn.
  - split; [reflexivity|]. split; [split; discriminate|].
    split; [intros [= ->]; reflexivity|].
    intros o [= ->] Ho. cbn. rewrite Ho.
    destruct (bool_decide _) eqn:E; [|reflexivity].
    apply bool_decide_eq_true in E. apply map_size_empty_iff in E.
    rewrite E. reflexivity.
  - split; [reflexivity|]. split; [intros e0; split; intros [= ->]; reflexivity|].
    split; [discriminate|]. discriminate.
Qed.

(** ** The prefix [www.] *)

Section Www.

Lemma split_length s : length (Py.split "." s) = S (count_char "." s).
Proof.
  induction s as [|c s IH]; [reflexivity|]. cbn [Py.split count_char].
  destruct (Ascii.eqb c "."); cbn [length]; [rewrite IH; reflexivity|].
  destruct (Py.split "." s); cbn [length] in *; lia.
Qed.

Lemma count_char_app c a b :
  count_char c (a +:+ b) = count_char c a + count_char c b.
Proof.
  induction a as [|x a IH]; [reflexivity|].
  change (count_char c (String x (a +:+ b))
          = count_char c (String x a) + count_char c b).
  cbn [count_char]. rewrite IH. lia.
Qed.

Lemma length_app_str a b :
  String.length (a +:+ b) = String.length a + String.length b.
Proof.
  induction a as [|x a IH]; [reflexivity|].
  change (S (String.length (a +:+ b)) = S (String.length a) + String.length b).
  rewrite IH. reflexivity.
Qed.

Lemma endswith_app p x : Py.endswith (p +:+ x) x = true.
Proof. apply endswith_spec. eauto. Qed.

(** A key that ends [p +:+ x] without ending [x] is longer than [x]:
    it has the dots of [x] and, when it starts with a dot, one more. *)
Lemma longer_key_dots p x k :
  Py.endswith (p +:+ x) k = true → Py.endswith x k = false →
  count_char "." x + leading_dot k ≤ count_char "." k.
Proof.
  intros E N.
  destruct (Nat.le_gt_cases (String.length k) (String.length x)) as [L|L].
  - rewrite (endswith_comparable _ _ _ (endswith_app p x) E L) in N.
    discriminate.
  - assert (Py.endswith k x = true) as [q ->]%endswith_spec
      by (eapply endswith_comparable; eauto using endswith_app; lia).
    rewrite count_char_app. rewrite length_app_str in L.
    destruct q as [|a q]; [cbn in L; lia|].
    change (leading_dot (String a q +:+ x)) with (leading_dot (String a q)).
    cbn [leading_dot count_char]. destruct (Ascii.eqb a "."); lia.
Qed.

Lemma first_suffix_ext a b table :
  (∀ i v, In (i, v) table → Py.endswith a i = Py.endswith b i) →
  first_suffix a table = first_suffix b table.
Proof.
  induction table as [|[i v] table IH]; intros HE; [reflexivity|].
  cbn [first_suffix]. rewrite (HE i v) by (left; reflexivity).
  rewrite IH; [reflexivity|]. intros j w Hj. apply (HE j w). right. exact Hj.
Qed.

(** With the labels of [x], the classifier reads [p +:+ x] as it reads
    [x], unless [x] is a single label. *)
Lemma classifier_ignores_prefix p x :
  length (Py.split "." x) ≠ 1 →
  filterTldToSupportedPattern (p +:+ x) (Py.split "." x)
  = filterTldToSupportedPattern x (Py.split "." x).
Proof.
  intros L. pose proof (split_length x) as SL.
  assert (∀ k, Py.endswith x k = true → Py.endswith (p +:+ x) k = true) as Up.
  { intros k [q ->]%endswith_spec. apply endswith_spec. exists (p +:+ q).
    clear. induction p as [|c p IH]; [reflexivity|].
    exact (f_equal (String c) IH). }
  assert (∀ k, count_char "." k < 1 + leading_dot k →
               Py.endswith (p +:+ x) k = Py.endswith x k) as Small.
  { intros k Hk. destruct (Py.endswith x k) eqn:N; [auto|].
    destruct (Py.endswith (p +:+ x) k) eqn:E; [|reflexivity].
    pose proof (longer_key_dots p x k E N). lia. }
  assert (∀ k, 2 < length (Py.split "." x) →
               count_char "." k < 2 + leading_dot k →
               Py.endswith (p +:+ x) k = Py.endswith x k) as Large.
  { intros k Hl Hk. destruct (Py.endswith x k) eqn:N; [auto|].
    destruct (Py.endswith (p +:+ x) k) eqn:E; [|reflexivity].
    pose proof (longer_key_dots p x k E N). lia. }
  assert (∀ i v, In (i, v) (PythonKeyWordMap ++ Utf8Map ++ [(".name", "")]) →
                 count_char "." i < 1 + leading_dot i) as Hsmall.
  { intros i v Hi.
    assert (forallb (λ e, count_char "." e.1 <? 1 + leading_dot e.1)
              (PythonKeyWordMap ++ Utf8Map ++ [(".name", "")]) = true) as HA
      by (vm_compute; reflexivity).
    rewrite forallb_forall in HA. apply Nat.ltb_lt. exact (HA _ Hi). }
  assert (∀ i v, In (i, v) Map2Underscore →
                 count_char "." i < 2 + leading_dot i) as Hlarge.
  { intros i v Hi.
    assert (forallb (λ e, count_char "." e.1 <? 2 + leading_dot e.1)
              Map2Underscore = true) as HA by (vm_compute; reflexivity).
    rewrite forallb_forall in HA. apply Nat.ltb_lt. exact (HA _ Hi). }
  unfold filterTldToSupportedPattern.
  assert ((if 2 <? length (Py.split "." x)
           then first_suffix (p +:+ x) Map2Underscore else None)
          = (if 2 <? length (Py.split "." x)
             then first_suffix x Map2Underscore else None)) as ->.
  { destruct (2 <? length (Py.split "." x)) eqn:G; [|reflexivity].
    apply Nat.ltb_lt in G. apply first_suffix_ext.
    intros i v Hi. apply (Large i G). eapply Hlarge; eauto. }
  rewrite (first_suffix_ext (p +:+ x) x PythonKeyWordMap)
    by (intros i v Hi; apply Small, (Hsmall i v); rewrite !in_app_iff; tauto).
  rewrite (first_suffix_ext (p +:+ x) x Utf8Map)
    by (intros i v Hi; apply Small, (Hsmall i v); rewrite !in_app_iff; tauto).
  rewrite (Small ".name")
    by (apply (Hsmall ".name" ""); rewrite !in_app_iff; cbn; tauto).
  reflexivity.
Qed.

Lemma lstrip_by_length p s :
  String.length (Py.lstrip_by p s) ≤ String.length s.
Proof.
  induction s as [|c s IH]; [reflexivity|]. cbn [Py.lstrip_by].
  destruct (p c); cbn [String.length]; lia.
Qed.

Lemma rstrip_by_length p s :
  String.length (Py.rstrip_by p s) ≤ String.length s.
Proof.
  induction s as [|c s IH]; [reflexivity|]. cbn [Py.rstrip_by].
  destruct (Py.rstrip_by p s); [destruct (p c)|]; cbn [String.length] in *; lia.
Qed.

Lemma lstrip_by_same_length p s :
  String.length s ≤ String.length (Py.lstrip_by p s) → Py.lstrip_by p s = s.
Proof.
  destruct s as [|c s]; [reflexivity|]. cbn [Py.lstrip_by].
  destruct (p c); [|reflexivity].
  pose proof (lstrip_by_length p s). cbn [String.length]. lia.
Qed.

Lemma rstrip_by_same_length p s :
  String.length s ≤ String.length (Py.rstrip_by p s) → Py.rstrip_by p s = s.
Proof.
  induction s as [|c s IH]; [reflexivity|]. cbn [Py.rstrip_by].
  pose proof (rstrip_by_length p s) as Hl.
  destruct (Py.rstrip_by p s) as [|b r] eqn:E.
  - destruct (p c); cbn [String.length]; [lia|].
    intros L. destruct s; [reflexivity|cbn [String.length] in L; lia].
  - cbn [String.length] in *. intros L. rewrite IH; [reflexivity|lia].
Qed.

(** A text that is its own normal form passes every step of line 214
    unchanged. *)
Lemma normal_form_steps x :
  Py.rstrip_dot (Py.strip (Py.lower x)) = x →
  Py.lower x = x ∧ Py.lstrip_by Py.isspace x = x
  ∧ Py.rstrip_by Py.isspace x = x ∧ Py.rstrip_dot x = x.
Proof.
  intros Hx.
  assert (Py.lower x = x) as Hl
    by (rewrite <- Hx at 1; rewrite normalized_text_lower; exact Hx).
  rewrite Hl in Hx. unfold Py.strip, Py.rstrip_dot in *.
  pose proof (lstrip_by_length Py.isspace x) as L1.
  pose proof (rstrip_by_length Py.isspace (Py.lstrip_by Py.isspace x)) as L2.
  pose proof (rstrip_by_length (λ c, Ascii.eqb c ".")
                (Py.rstrip_by Py.isspace (Py.lstrip_by Py.isspace x))) as L3.
  rewrite Hx in L3.
  assert (Py.lstrip_by Py.isspace x = x) as H1
    by (apply lstrip_by_same_length; lia).
  rewrite H1 in *.
  assert (Py.rstrip_by Py.isspace x = x) as H2
    by (apply rstrip_by_same_length; lia).
  rewrite H2 in *. auto.
Qed.

Lemma rstrip_by_app_nonempty p a b :
  b ≠ EmptyString → Py.rstrip_by p b = b →
  Py.rstrip_by p (a +:+ b) = a +:+ b.
Proof.
  intros Hb Hf. induction a as [|c a IH]; [exact Hf|].
  change (Py.rstrip_by p (String c (a +:+ b)) = String c (a +:+ b)).
  cbn [Py.rstrip_by]. rewrite IH.
  destruct (a +:+ b) eqn:E; [|reflexivity].
  destruct a; [contradiction|discriminate].
Qed.

Lemma normalize_www x :
  x ≠ EmptyString →
  Py.rstrip_dot (Py.strip (Py.lower x)) = x →
  normalize ("www." +:+ x) = Ok ("www." +:+ x, Py.split "." x).
Proof.
  intros Hne Hx. destruct (normal_form_steps x Hx) as (Hl & H1 & H2 & H3).
  assert (Py.rstrip_dot (Py.strip (Py.lower ("www." +:+ x))) = "www." +:+ x)
    as Ht.
  { rewrite lower_app, Hl. unfold Py.strip.
    change (Py.lstrip_by Py.isspace (Py.lower "www." +:+ x))
      with (Py.lower "www." +:+ x).
    change (Py.lower "www.") with "www.".
    rewrite (rstrip_by_app_nonempty Py.isspace _ _ Hne H2).
    apply (rstrip_by_app_nonempty _ _ _ Hne H3). }
  unfold normalize. rewrite Ht. reflexivity.
Qed.

End Www.

(** X20.  A leading [www.] is not seen.  For a non-empty text [x] that
    is in normal form and whose first label is not [www], [query] on
    [www.] followed by [x] is the run of [query] on [x]: the label lists
    are the same, and no key of a table can match the longer text
    without matching [x] when the table is consulted. *)
Theorem query_ignores_www_prefix `{Collaborators}
    (force : bool) (cache_file : option string) (slow_down : Z)
    (ignore_returncode : bool) (server : option string)
    (verbose with_cleanup_results : bool) (internationalized : PyVal)
    (st : St) (x : string) :
  x ≠ EmptyString →
  normalize x = Ok (x, Py.split "." x) →
  normalize ("www." +:+ x) = Ok ("www." +:+ x, Py.split "." x)
  ∧ query (PyStr ("www." +:+ x)) force cache_file slow_down ignore_returncode
      server verbose with_cleanup_results internationalized st
    = query (PyStr x) force cache_file slow_down ignore_returncode server
        verbose with_cleanup_results internationalized st.
Proof.
  intros Hne EN.
  assert (Py.rstrip_dot (Py.strip (Py.lower x)) = x) as Hx.
  { destruct (normalize_total x) as (d0 & rest & _ & EN').
    rewrite EN in EN'. injection EN' as E _. symmetry. exact E. }
  pose proof (normalize_www x Hne Hx) as EW.
  split; [exact EW|].
  rewrite !query_str_unfold, EW, EN.
  destruct (length (Py.split "." x) =? 1) eqn:L; [reflexivity|].
  apply Nat.eqb_neq in L.
  rewrite (classifier_ignores_prefix "www." x L). reflexivity.
Qed.

Lemma query_ignores_www_prefix_witness :
  normalize ("www." +:+ "example.co.il")
  = Ok ("www." +:+ "example.co.il", Py.split "." "example.co.il")
  ∧ Stub.run ("www." +:+ "example.co.il") = Stub.run "example.co.il".
Proof.
  apply (@query_ignores_www_prefix Stub.env false None 0%Z false None false
           false (PyBool false) Stub.st0 "example.co.il").
  - discriminate.
  - reflexivity.
Defined.
